(** * package-tracker: the Flask request handlers of [main.py]

  The handlers are embedded as computations in a small state-and-exception
  monad.  The state holds the Flask session, in two parts: the keys the
  application writes ([session]) and the messages that Flask's [flash] keeps
  in the session under "_flashes" ([flashes]); [flask_session] puts the two
  together.  It also holds the state owned by the collaborators
  ([PackageHandler], [Authenticator]) and a log of the calls made to them. *)

From Stdlib Require Import ZArith Lia.
From stdpp Require Import gmap gmultiset strings list.

Local Open Scope string_scope.
Local Open Scope Z_scope.

(** ** Python values *)

Module Py.

#[warnings="-register-all"]
Inductive pyval : Type :=
| PyNone
| PyBool (b : bool)
| PyInt (z : Z)
| PyStr (s : string)
| PyList (items : list pyval).

(** [bool(v)]: what [if v:] and [if not v:] test. *)
Definition truthy (v : pyval) : bool :=
  match v with
  | PyNone => false
  | PyBool b => b
  | PyInt z => negb (z =? 0)
  | PyStr s => negb (String.eqb s "")
  | PyList [] => false
  | PyList (_ :: _) => true
  end.

Inductive exn : Type :=
| TypeError
| KeyError (key : string).

Inductive outcome (A : Type) : Type :=
| Return (a : A)
| Raise (e : exn).
Arguments Return {A} a.
Arguments Raise {A} e.

(** [v > n] for an integer literal [n]: numbers (and booleans, which are
    integers in Python) compare by value, anything else raises. *)
Definition gt_int (v : pyval) (n : Z) : outcome bool :=
  match v with
  | PyInt z => Return (n <? z)
  | PyBool b => Return (n <? Z.b2z b)
  | PyNone | PyStr _ | PyList _ => Raise TypeError
  end.

End Py.
Export Py.

(** ** What a handler returns *)

Inductive endpoint : Type :=
| Login
| Register
| PackageList.

(** [url_for], over the routes declared with [@app.route]. *)
Definition url_for (e : endpoint) : string :=
match e with
| Login => "/login"
| Register => "/register"
| PackageList => "/packageList"
end.

Record LoginForm := { login_valid : bool; login_email : string; login_password : string }.
Record RegisterForm := { register_valid : bool; register_email : string; register_password : string }.
Record AddPackageForm := { add_valid : bool; trackingCode : string }.

(** A keyword argument handed to [render_template]. *)
Inductive targ : Type :=
| ArgVal (v : pyval)
| ArgLoginForm (f : LoginForm)
| ArgRegisterForm (f : RegisterForm)
| ArgAddPackageForm (f : AddPackageForm).

Inductive response : Type :=
| Rendered (template : string) (context : list (string * targ))
| Redirect (location : string)
| NoResponse.

Definition render_template (template : string) (context : list (string * targ)) : response :=
Rendered template context.

Definition redirect (location : string) : response := Redirect location.

(** ** Calls into the collaborators *)

Inductive call : Type :=
| CreateNewPackage (code : string) (userID : pyval)
| GetListOfPackages (userID : pyval)
| GetPackageData (packageID : Z) (userID : pyval)
| VerifyLogin (email password : string)
| CreateNewPendingUser (email password : string)
| CreateNewUser (token : string)
| SendEmailVerificationEmail (email : string).

(** The user the package core is told it acts for, when the call is one into
  the package core. *)
Definition core_identity (c : call) : option pyval :=
match c with
| CreateNewPackage _ u | GetListOfPackages u | GetPackageData _ u => Some u
| _ => None
end.

(** [packages.PackageHandler] and [auth.Authenticator] as seen from [main.py]:
  methods that return a Python value and may change their own state [W]. *)
Record PackageHandler (W : Type) := {
createNewPackage : string -> pyval -> W -> pyval * W;
getListOfPackages : pyval -> W -> pyval * W;
getPackageData : Z -> pyval -> W -> pyval * W
}.
Arguments createNewPackage {W} _ _ _ _.
Arguments getListOfPackages {W} _ _ _.
Arguments getPackageData {W} _ _ _ _.

Record Authenticator (W : Type) := {
verifyLogin : string -> string -> W -> pyval * W;
createNewPendingUser : string -> string -> W -> pyval * W;
createNewUser : string -> W -> pyval * W;
sendEmailVerificationEmail : string -> W -> pyval * W
}.
Arguments verifyLogin {W} _ _ _ _.
Arguments createNewPendingUser {W} _ _ _ _.
Arguments createNewUser {W} _ _ _.
Arguments sendEmailVerificationEmail {W} _ _ _.

(** ** The request state and its monad *)

(** [session] holds the session keys other than "_flashes"; [flashes] is the
    list stored under "_flashes", oldest message first, as (message,
    category). *)
Record State (W : Type) := {
session : gmap string pyval;
flashes : list (string * string);
calls : list call;
world : W
}.
Arguments session {W} _.
Arguments flashes {W} _.
Arguments calls {W} _.
Arguments world {W} _.
Arguments Build_State {W} _ _ _ _.

(** A flashed message as Flask stores it: the tuple (category, message). *)
Definition pyFlash (f : string * string) : pyval := PyList [PyStr f.2; PyStr f.1].

(** The Flask session as a whole, as a dictionary: the application's keys
    and, when a message is pending, the list of messages under "_flashes". *)
Definition flask_session {W : Type} (st : State W) : gmap string pyval :=
  match flashes st with
  | [] => delete "_flashes" (session st)
  | fl => <["_flashes" := PyList (map pyFlash fl)]> (session st)
  end.

Section Handlers.

Context {W : Type}.
Variable packageHandler : PackageHandler W.
Variable authenticator : Authenticator W.

Definition M (A : Type) : Type := State W -> outcome A * State W.

Definition ret {A} (a : A) : M A := fun st => (Return a, st).

Definition bind {A B} (m : M A) (k : A -> M B) : M B :=
  fun st =>
    match m st with
    | (Return a, st') => k a st'
    | (Raise e, st') => (Raise e, st')
    end.

Definition raise {A} (e : exn) : M A := fun st => (Raise e, st).

Notation "x <- m ;; k" := (bind m (fun x => k))
  (at level 100, m at next level, right associativity).
Notation "m ;;; k" := (bind m (fun _ => k))
  (at level 100, right associativity).

(** [key in session] *)
Definition session_contains (key : string) : M bool :=
  fun st => (Return (bool_decide (is_Some (session st !! key))), st).

(** [session[key]] *)
Definition session_get (key : string) : M pyval :=
  fun st =>
    match session st !! key with
    | Some v => (Return v, st)
    | None => (Raise (KeyError key), st)
    end.

(** [session[key] = v] *)
Definition session_set (key : string) (v : pyval) : M unit :=
  fun st => (Return tt, Build_State (<[key := v]> (session st)) (flashes st) (calls st) (world st)).

(** [session.clear()]: every key goes, the pending messages under "_flashes"
    with the rest. *)
Definition session_clear : M unit :=
  fun st => (Return tt, Build_State ∅ [] (calls st) (world st)).

(** [flash(message, category)]: the message is appended to the list the
    session holds under "_flashes". *)
Definition flash (message category : string) : M unit :=
  fun st => (Return tt, Build_State (session st) (flashes st ++ [(message, category)]) (calls st) (world st)).

(** What a logged call does: the method of the collaborator it names, at the
    arguments it carries. *)
Definition perform (c : call) : W -> pyval * W :=
  match c with
  | CreateNewPackage code userID => createNewPackage packageHandler code userID
  | GetListOfPackages userID => getListOfPackages packageHandler userID
  | GetPackageData packageID userID => getPackageData packageHandler packageID userID
  | VerifyLogin email password => verifyLogin authenticator email password
  | CreateNewPendingUser email password => createNewPendingUser authenticator email password
  | CreateNewUser token => createNewUser authenticator token
  | SendEmailVerificationEmail email => sendEmailVerificationEmail authenticator email
  end.

(** A method call on a collaborator: it is logged, its result is returned
    and the collaborator's state is replaced by the one it leaves. *)
Definition invoke (c : call) : M pyval :=
  fun st =>
    let '(v, w) := perform c (world st) in
    (Return v, Build_State (session st) (flashes st) (calls st ++ [c]) w).

Definition lift_outcome {A} (o : outcome A) : M A := fun st => (o, st).

(** *** [/] *)

Definition hello_world : M response :=
  ret (render_template "main_layout_container.html" []).

(** *** [login_required] *)

Definition login_denied : M response :=
  flash "You need to log in to do that!" "danger" ;;;
  ret (redirect (url_for Login)).

Definition login_required {A : Type} (func : A -> M response) : A -> M response :=
  fun args =>
    has <- session_contains "userID" ;;
    ok <- (if has : bool
           then v <- session_get "userID" ;; lift_outcome (gt_int v 0)
           else ret false) ;;
    if ok : bool then func args else login_denied.

(** *** [/login] *)

Definition login (form : LoginForm) : M response :=
  if login_valid form then
    userID <- invoke (VerifyLogin (login_email form) (login_password form)) ;;
    if truthy userID then
      session_set "userID" userID ;;;
      flash "Login successful!" "success" ;;;
      ret (redirect (url_for PackageList))
    else
      flash "Incorrect username or password. Please try again." "danger" ;;;
      ret (redirect (url_for Login))
  else ret (render_template "login.html" [("form", ArgLoginForm form)]).

(** *** [/logout] *)

Definition logout_func (_ : unit) : M response :=
  session_set "userID" (PyInt 0) ;;;
  session_clear ;;;
  flash "You have been logged out!" "primary" ;;;
  ret (redirect (url_for Login)).

Definition logout : unit -> M response := login_required logout_func.

(** *** [/register] *)

Definition register (form : RegisterForm) : M response :=
  if register_valid form then
    pendingUserID <- invoke (CreateNewPendingUser (register_email form) (register_password form)) ;;
    if truthy pendingUserID then
      ret (render_template "verifyYourEmail.html"
             [("email", ArgVal (PyStr (register_email form)));
              ("password", ArgVal (PyStr (register_password form)))])
    else
      flash "That user already exists!" "danger" ;;;
      ret (redirect (url_for Register))
  else ret (render_template "register.html" [("form", ArgRegisterForm form)]).

(** *** [/packageList] *)

Definition packageList_func (form : AddPackageForm) : M response :=
  if add_valid form then
    userID <- session_get "userID" ;;
    added <- invoke (CreateNewPackage (trackingCode form) userID) ;;
    (* on success the handler also blanks [form.trackingCode.data]; the form
       is not used again before the redirect *)
    (if truthy added
     then flash "Package added successfully!" "success"
     else flash "You have already added that package!" "warning") ;;;
    ret (redirect (url_for PackageList))
  else
    userID <- session_get "userID" ;;
    packageListDict <- invoke (GetListOfPackages userID) ;;
    ret (render_template "packageList.html"
           [("form", ArgAddPackageForm form); ("packageList", ArgVal packageListDict)]).

Definition packageList : AddPackageForm -> M response := login_required packageList_func.

(** *** [/packageDetails/<int:packageID>] *)

Definition viewPackage_func (packageID : Z) : M response :=
  userID <- session_get "userID" ;;
  packageData <- invoke (GetPackageData packageID userID) ;;
  if negb (truthy packageData) then
    flash "You are not tracking that package. Add it!" "primary" ;;;
    ret (redirect (url_for PackageList))
  else ret (render_template "packageData.html" [("packageData", ArgVal packageData)]).

Definition viewPackage : Z -> M response := login_required viewPackage_func.

(** *** [/confirmUserEmail/<string:token>] *)

Definition confirmUserEmail (token : string) : M response :=
  userID <- invoke (CreateNewUser token) ;;
  if negb (truthy userID) then
    flash "This link is either invalid or has expired. Please re-register." "warning" ;;;
    ret (redirect (url_for Register))
  else
    session_set "userID" userID ;;;
    flash "Verification successful! You are now logged in." "success" ;;;
    ret (redirect (url_for PackageList)).

(** *** [/resendEmail/<int:resendType>/<string:email>] *)

Definition resendEmail (resendType : Z) (email : string) : M response :=
  if resendType =? 1 then
    sent <- invoke (SendEmailVerificationEmail email) ;;
    (if negb (truthy sent)
     then flash "Something went wrong and we couldn't resend the email. You may need to re-register." "danger"
     else ret tt) ;;;
    ret (render_template "verifyYourEmail.html" [("email", ArgVal (PyStr email))])
  else if resendType =? 2 then ret NoResponse
  else ret NoResponse.

(** *** The routes *)

Inductive request : Type :=
| GetHome
| ReqLogin (form : LoginForm)
| ReqLogout
| ReqRegister (form : RegisterForm)
| ReqPackageList (form : AddPackageForm)
| ReqPackageDetails (packageID : Z)
| ReqConfirmUserEmail (token : string)
| ReqResendEmail (resendType : Z) (email : string).

Definition dispatch (r : request) : M response :=
  match r with
  | GetHome => hello_world
  | ReqLogin form => login form
  | ReqLogout => logout tt
  | ReqRegister form => register form
  | ReqPackageList form => packageList form
  | ReqPackageDetails packageID => viewPackage packageID
  | ReqConfirmUserEmail token => confirmUserEmail token
  | ReqResendEmail resendType email => resendEmail resendType email
  end.

(** What Flask makes of the value the view function returns: a rendered page
    or a redirect is the response; a view that returns None makes the request
    fail with TypeError (the view function did not return a valid response). *)
Definition respond (r : request) : M response :=
  fun st =>
    match dispatch r st with
    | (Return NoResponse, st') => (Raise TypeError, st')
    | answered => answered
    end.

End Handlers.

(** * The package core behind [packageHandler]

    [main.py] only calls into [packages.py]; the core is modelled from its
    specification: the Tracking Store, the Refresh Coordinator and the
    Package Handler facade. *)

Module Core.

(** Modelled from the spec: Carrier, the enumerated variant {CarrierA,
    CarrierB, ..., Unknown}. *)
Inductive Carrier : Type :=
| CarrierA
| CarrierB
| Unknown.

(** Modelled from the spec: canonicalStage, the closed set {Created,
    InTransit, OutForDelivery, Delivered, Exception, Unknown}. *)
Inductive Stage : Type :=
| Created
| InTransit
| OutForDelivery
| Delivered
| Exception
| UnknownStage.

(** Modelled from the spec: StatusEvent (timestampUTC-or-unknown,
    locationText, descriptionText, canonicalStage) and Timeline, the ordered
    sequence of StatusEvent. *)
Record StatusEvent := {
  timestampUTC : option string;
  locationText : string;
  descriptionText : string;
  canonicalStage : Stage
}.

Definition Timeline : Type := list StatusEvent.

(** Modelled from the spec: the kinds of ScrapeError and ParseError, which
    are also the kinds of the coordinator state Failed(kind). *)
Inductive ErrorKind : Type :=
| Timeout
| NotFound
| CarrierUnavailable
| ParseTarget.

(** Modelled from the spec: RefreshState, the per-Package metadata
    (lastRefreshedAt, lastRefreshSucceeded, inFlight flag), with the kind that
    the coordinator state Failed(kind) carries. *)
Record RefreshState := {
  lastRefreshedAt : option nat;
  lastRefreshSucceeded : bool;
  failedKind : option ErrorKind;
  inFlight : bool
}.

(** Modelled from the spec: a row of the persisted table
    packages(id, trackingCode, carrier, timelineBlob, lastRefreshedAt,
    refreshState). *)
Record Package := {
  packageID : Z;
  code : string;
  carrier : Carrier;
  timeline : Timeline;
  refreshState : RefreshState
}.

(** Modelled from the spec: a row of subscriptions(packageID, userID,
    createdAt). *)
Record Subscription := {
  sub_packageID : Z;
  sub_userID : Z;
  createdAt : nat
}.

(** Modelled from the spec: the Tracking Store, its two tables. *)
Record Store := {
  packages : list Package;
  subscriptions : list Subscription
}.

(** Modelled from the spec: the store before any registration. *)
Definition emptyStore : Store := {| packages := []; subscriptions := [] |}.

#[global] Instance Carrier_eq_dec : EqDecision Carrier.
Proof. solve_decision. Defined.

(** What never changes in a row once created: its id, code and carrier. *)
Definition ident (p : Package) : Z * string * Carrier := (packageID p, code p, carrier p).

(** The identity of a Package: (TrackingCode, Carrier). *)
Definition key (p : Package) : string * Carrier := (code p, carrier p).

(** The tests [has_key] and [has_id] below, on what [ident] keeps of a row. *)
Definition key_is (c : string) (k : Carrier) (i : Z * string * Carrier) : bool :=
  bool_decide (i.1.2 = c) && bool_decide (i.2 = k).

Definition id_is (id : Z) (i : Z * string * Carrier) : bool := i.1.1 =? id.

Definition has_key (c : string) (k : Carrier) (p : Package) : bool :=
  bool_decide (code p = c) && bool_decide (carrier p = k).

Definition has_id (id : Z) (p : Package) : bool := packageID p =? id.

(** Modelled from the spec: a Subscription links this user to this package. *)
Definition links (id user : Z) (s : Subscription) : bool :=
  (sub_packageID s =? id) && (sub_userID s =? user).

(** Modelled from the spec: the packages table read by (trackingCode,
    carrier) and by id; the first matching row is the one read. *)
Definition lookupPackage (c : string) (k : Carrier) (st : Store) : option Package :=
  find (has_key c k) (packages st).

Definition packageByID (id : Z) (st : Store) : option Package :=
  find (has_id id) (packages st).

(** The id given to a new row: one more than the largest id in the table. *)
Definition nextID (st : Store) : Z :=
  1 + foldr Z.max 0 (map packageID (packages st)).

(** Modelled from the spec: the RefreshState of a Package just created, whose
    Timeline is empty until the first successful refresh. *)
Definition neverRefreshed : RefreshState :=
  {| lastRefreshedAt := None; lastRefreshSucceeded := false;
     failedKind := None; inFlight := false |}.

(** Modelled from the spec: Tracking Store, findOrCreatePackage(code, carrier)
    -> Package, idempotent: returns the existing Package if (code, carrier) is
    already present; a created Package starts with an empty Timeline. *)
Definition findOrCreatePackage (c : string) (k : Carrier) (st : Store) : Package * Store :=
  match lookupPackage c k st with
  | Some p => (p, st)
  | None =>
      let p := {| packageID := nextID st; code := c; carrier := k;
                  timeline := []; refreshState := neverRefreshed |} in
      (p, {| packages := packages st ++ [p]; subscriptions := subscriptions st |})
  end.

Inductive AddOutcome : Type :=
| SubscriptionCreated
| AlreadyExists.

(** Modelled from the spec: Tracking Store, addSubscription(package, userID)
    -> {Created | AlreadyExists}; never creates a duplicate Subscription. *)
Definition addSubscription (p : Package) (user : Z) (now : nat) (st : Store) : AddOutcome * Store :=
  if existsb (links (packageID p) user) (subscriptions st)
  then (AlreadyExists, st)
  else (SubscriptionCreated,
        {| packages := packages st;
           subscriptions := subscriptions st ++
             [{| sub_packageID := packageID p; sub_userID := user; createdAt := now |}] |}).

(** Modelled from the spec: Tracking Store, listPackagesForUser(userID) ->
    ordered sequence of (Package, Subscription), ordered by Subscription
    creation time (rows are appended as they are created). *)
Definition listPackagesForUser (user : Z) (st : Store) : list (Package * Subscription) :=
  flat_map (fun s =>
              if sub_userID s =? user
              then match packageByID (sub_packageID s) st with
                   | Some p => [(p, s)]
                   | None => []
                   end
              else [])
           (subscriptions st).

(** Modelled from the spec: Tracking Store, getPackageForUser(packageID,
    userID) -> Package | NotAuthorized, NotAuthorized modelled as absence
    when no Subscription links this user to this package. *)
Definition getPackageForUser (id user : Z) (st : Store) : option Package :=
  if existsb (links id user) (subscriptions st) then packageByID id st else None.

(** Modelled from the spec: Tracking Store, updateTimeline(package, timeline,
    refreshState): replaces the Package's Timeline and RefreshState. *)
Definition updateTimeline (p : Package) (tl : Timeline) (rs : RefreshState) (st : Store) : Store :=
  {| packages :=
       map (fun q => if has_id (packageID p) q
                     then {| packageID := packageID q; code := code q; carrier := carrier q;
                             timeline := tl; refreshState := rs |}
                     else q)
           (packages st);
     subscriptions := subscriptions st |}.

(** Modelled from the spec: RawResponse, the rendered page text or markup a
    Scraper Adapter returns. *)
Definition RawResponse : Type := string.

(** Modelled from the spec: ParseError, raised by the Status Normalizer only
    when the expected status container is absent. *)
Inductive ParseError : Type :=
| StatusContainerAbsent.

(** Modelled from the spec: the Refresh Coordinator's states per Package. *)
Inductive CoordState : Type :=
| Fresh
| Stale
| Refreshing
| Failed (kind : ErrorKind).

(** Modelled from the spec: Failed(NotFound) and Failed(ParseTarget) are
    terminal, Failed(Timeout) and Failed(CarrierUnavailable) transient. *)
Definition terminal (kind : ErrorKind) : bool :=
  match kind with
  | NotFound | ParseTarget => true
  | Timeout | CarrierUnavailable => false
  end.

(** Modelled from the spec: what the facade and the coordinator work in: the
    store, the current time and the carrier sites as the Scraper Adapters
    find them, fetchRaw(code, timeout) -> RawResponse | ScrapeError for each
    Carrier. *)
Record World := {
  store : Store;
  clock : nat;
  fetchRaw : Carrier -> string -> nat -> RawResponse + ErrorKind
}.

Definition setStore (st : Store) (w : World) : World :=
  {| store := st; clock := clock w; fetchRaw := fetchRaw w |}.

(** Modelled from the spec: one entry of listPackages(userID), {packageID,
    trackingCode, carrierName, latestStage, lastRefreshedAt}. *)
Record Summary := {
  sum_packageID : Z;
  sum_trackingCode : string;
  sum_carrier : Carrier;
  sum_latestStage : Stage;
  sum_lastRefreshedAt : option nat
}.

Section Coordinator.

(** The Carrier Classifier, the Status Normalizer, the staleness threshold
    and the per-attempt timeout are configuration of the core. *)
Variable classify : string -> Carrier.
Variable normalize : RawResponse -> Carrier -> Timeline + ParseError.
Variable threshold : nat.
Variable scrapeTimeout : nat.

(** Modelled from the spec: Fresh -> Stale when now - lastRefreshedAt exceeds
    the staleness threshold; a Package never refreshed is stale. *)
Definition pastThreshold (now : nat) (rs : RefreshState) : bool :=
  match lastRefreshedAt rs with
  | None => true
  | Some t => (threshold <? now - t)%nat
  end.

(** Modelled from the spec: the Refresh Coordinator's state of a Package; a
    transient failure is retried on the next staleness check, a terminal one
    is not. *)
Definition coordState (now : nat) (p : Package) : CoordState :=
  let rs := refreshState p in
  if inFlight rs then Refreshing
  else match failedKind rs with
       | Some kind =>
           if terminal kind then Failed kind
           else if pastThreshold now rs then Stale else Failed kind
       | None => if pastThreshold now rs then Stale else Fresh
       end.

Definition isStale (s : CoordState) : bool :=
  match s with
  | Stale => true
  | _ => false
  end.

(** Modelled from the spec: a Package of Unknown carrier is stored but never
    scraped; any other is scraped when Stale. *)
Definition wantsScrape (now : nat) (p : Package) : bool :=
  bool_decide (carrier p ≠ Unknown) && isStale (coordState now p).

(** Modelled from the spec: Stale -> Refreshing on the first caller that
    requests a refresh, by setting the flag keyed by Package identity; a
    caller that observes any other state launches nothing. *)
Definition beginRefresh (now : nat) (p : Package) (st : Store) : option Store :=
  if wantsScrape now p
  then Some (updateTimeline p (timeline p)
               {| lastRefreshedAt := lastRefreshedAt (refreshState p);
                  lastRefreshSucceeded := lastRefreshSucceeded (refreshState p);
                  failedKind := failedKind (refreshState p);
                  inFlight := true |} st)
  else None.

(** Modelled from the spec: Refreshing -> Fresh on successful
    fetch+normalize+store, Refreshing -> Failed(kind) on ScrapeError or
    ParseError; either way the flag is released, and on failure the stored
    Timeline is written back as it was. *)
Definition finishRefresh (now : nat) (p : Package) (result : Timeline + ErrorKind) (st : Store) : Store :=
  match result with
  | inl tl =>
      updateTimeline p tl
        {| lastRefreshedAt := Some now; lastRefreshSucceeded := true;
           failedKind := None; inFlight := false |} st
  | inr kind =>
      updateTimeline p (timeline p)
        {| lastRefreshedAt := Some now; lastRefreshSucceeded := false;
           failedKind := Some kind; inFlight := false |} st
  end.

(** Modelled from the spec: one scrape attempt, the Scraper Adapter's
    fetchRaw followed by the Status Normalizer's normalize. *)
Definition scrape (fetch : Carrier -> string -> nat -> RawResponse + ErrorKind) (p : Package)
  : Timeline + ErrorKind :=
  match fetch (carrier p) (code p) scrapeTimeout with
  | inl raw =>
      match normalize raw (carrier p) with
      | inl tl => inl tl
      | inr StatusContainerAbsent => inr ParseTarget
      end
  | inr kind => inr kind
  end.

(** Modelled from the spec: the Refresh Coordinator run synchronously for one
    Package: begin, fetch+normalize, store. *)
Definition refresh (id : Z) (w : World) : World :=
  match packageByID id (store w) with
  | None => w
  | Some p =>
      match beginRefresh (clock w) p (store w) with
      | None => w
      | Some st1 => setStore (finishRefresh (clock w) p (scrape (fetchRaw w) p) st1) w
      end
  end.

(** Modelled from the spec: Package Handler, addPackage(code, userID) ->
    {Added | AlreadyTracked}: classify -> findOrCreatePackage ->
    addSubscription; a newly created Package gets an initial (here
    synchronous) refresh before returning. *)
Definition addPackage (c : string) (user : Z) (w : World) : bool * World :=
  let k := classify c in
  let isNew := negb (bool_decide (is_Some (lookupPackage c k (store w)))) in
  let '(p, st1) := findOrCreatePackage c k (store w) in
  let '(r, st2) := addSubscription p user (clock w) st1 in
  let w2 := setStore st2 w in
  (match r with SubscriptionCreated => true | AlreadyExists => false end,
   if isNew then refresh (packageID p) w2 else w2).

Definition latestStage (tl : Timeline) : Stage :=
  match last tl with
  | Some e => canonicalStage e
  | None => UnknownStage
  end.

(** Modelled from the spec: Package Handler, listPackages(userID) -> sequence
    of package summaries. *)
Definition listPackages (user : Z) (w : World) : list Summary :=
  map (fun '(p, _) =>
         {| sum_packageID := packageID p; sum_trackingCode := code p;
            sum_carrier := carrier p; sum_latestStage := latestStage (timeline p);
            sum_lastRefreshedAt := lastRefreshedAt (refreshState p) |})
      (listPackagesForUser user (store w)).

(** Modelled from the spec: Package Handler, getPackageDetail(packageID,
    userID) -> Timeline | NotAuthorized: calls getPackageForUser, triggers a
    refresh if Stale, returns the current Timeline regardless of the refresh
    outcome. *)
Definition getPackageDetail (id user : Z) (w : World) : option Timeline * World :=
  match getPackageForUser id user (store w) with
  | None => (None, w)
  | Some _ =>
      let w' := refresh id w in
      (timeline <$> packageByID id (store w'), w')
  end.

(** A later store extends an earlier one: the rows of the earlier one are
    still there, in place, under the same id, code and carrier, and so are
    its subscriptions. *)
Definition extends (st st' : Store) : Prop :=
  map ident (packages st) `prefix_of` map ident (packages st') /\
  subscriptions st `prefix_of` subscriptions st'.

(** Modelled from the spec: the uniqueness constraints of the persisted
    state, on (trackingCode, carrier) and on (packageID, userID). *)
Definition unique_keys (st : Store) : Prop := NoDup (map key (packages st)).

Definition subscriber (s : Subscription) : Z * Z := (sub_packageID s, sub_userID s).

Definition unique_subscriptions (st : Store) : Prop :=
  NoDup (map subscriber (subscriptions st)).

(** Modelled from the spec: packages(id, ...), the id identifies the row: no
    two Packages share an id. *)
Definition unique_ids (st : Store) : Prop := NoDup (map packageID (packages st)).

(** Modelled from the spec: a Subscription is (Package, UserID, createdAt), it
    refers to a Package of the store. *)
Definition subscriptions_refer (st : Store) : Prop :=
  forall s : Subscription,
    s ∈ subscriptions st -> sub_packageID s ∈ map packageID (packages st).

(** ** Histories of the core

    What happens to a world over time: calls of the facade, and the
    environment moving on (time passes, carrier sites change). *)

Inductive action : Type :=
| AddPackage (c : string) (user : Z)
| ViewDetail (id user : Z)
| ListPackages (user : Z)
| Environment (now : nat) (fetch : Carrier -> string -> nat -> RawResponse + ErrorKind).

Definition act (a : action) (w : World) : World :=
  match a with
  | AddPackage c user => (addPackage c user w).2
  | ViewDetail id user => (getPackageDetail id user w).2
  | ListPackages _ => w
  | Environment now fetch => {| store := store w; clock := now; fetchRaw := fetch |}
  end.

Fixpoint acts (history : list action) (w : World) : World :=
  match history with
  | [] => w
  | a :: history' => acts history' (act a w)
  end.

Definition initialWorld (now : nat) (fetch : Carrier -> string -> nat -> RawResponse + ErrorKind) : World :=
  {| store := emptyStore; clock := now; fetchRaw := fetch |}.

(** One detail view of Package [id] by [user] in each of the environments
    [envs], in turn; the Timelines served and the world left. *)
Fixpoint detailViews (id user : Z)
    (envs : list (nat * (Carrier -> string -> nat -> RawResponse + ErrorKind)))
    (w : World) : list (option Timeline) * World :=
  match envs with
  | [] => ([], w)
  | (now, fetch) :: envs' =>
      let '(served, w1) :=
        getPackageDetail id user {| store := store w; clock := now; fetchRaw := fetch |} in
      let '(rest, w2) := detailViews id user envs' w1 in
      (served :: rest, w2)
  end.

(** ** Concurrent refresh triggers

    Callers and scrapes interleave; each event below is one atomic step on
    the shared store.  [running] holds the scrapes that have been launched and
    have not completed, [scrapeCalls] logs every launch. *)

Inductive event : Type :=
| Tick
| Trigger (id : Z)
| Finish (id : Z) (result : Timeline + ErrorKind).

Record System := {
  sys_store : Store;
  sys_clock : nat;
  scrapeCalls : list Z;
  running : gmultiset Z
}.

(** Modelled from the spec: the Refresh Coordinator under concurrent callers.
    A trigger launches a scrape only if it finds the Package Stale and takes
    the flag; a completing scrape stores its result and releases the flag;
    time passes in ticks. *)
Definition step (e : event) (s : System) : System :=
  match e with
  | Tick =>
      {| sys_store := sys_store s; sys_clock := S (sys_clock s);
         scrapeCalls := scrapeCalls s; running := running s |}
  | Trigger id =>
      match packageByID id (sys_store s) with
      | None => s
      | Some p =>
          match beginRefresh (sys_clock s) p (sys_store s) with
          | None => s
          | Some st1 =>
              {| sys_store := st1; sys_clock := sys_clock s;
                 scrapeCalls := scrapeCalls s ++ [id];
                 running := {[+ id +]} ⊎ running s |}
          end
      end
  | Finish id result =>
      if bool_decide (id ∈ running s) then
        match packageByID id (sys_store s) with
        | None => s
        | Some p =>
            {| sys_store := finishRefresh (sys_clock s) p result (sys_store s);
               sys_clock := sys_clock s;
               scrapeCalls := scrapeCalls s;
               running := running s ∖ {[+ id +]} |}
        end
      else s
  end.

Fixpoint run (trace : list event) (s : System) : System :=
  match trace with
  | [] => s
  | e :: trace' => run trace' (step e s)
  end.

Fixpoint ticks (trace : list event) : nat :=
  match trace with
  | [] => 0
  | Tick :: trace' => S (ticks trace')
  | _ :: trace' => ticks trace'
  end.

(** The scrape calls logged for one Package. *)
Definition scrapesOf (id : Z) (s : System) : nat :=
  length (filter (fun i => i = id) (scrapeCalls s)).

(** The flag of a Package is set exactly while one scrape of it is running:
    the number of running scrapes of [id] is 1 under a set flag and 0
    otherwise. *)
Definition flagsMatchRunning (s : System) : Prop :=
  forall id : Z,
    multiplicity id (running s) =
      match packageByID id (sys_store s) with
      | Some p => if inFlight (refreshState p) then 1%nat else 0%nat
      | None => 0%nat
      end.

(** Package [id] cannot turn Stale within the next [k] ticks: it is being
    refreshed, or its last refresh is recent enough. *)
Definition settled (id : Z) (k : nat) (s : System) : Prop :=
  (k <= threshold)%nat /\
  match packageByID id (sys_store s) with
  | Some p =>
      inFlight (refreshState p) = true \/
      exists t, lastRefreshedAt (refreshState p) = Some t /\
                (sys_clock s + k <= t + threshold)%nat
  | None => True
  end.

(** ** The facade as [main.py] calls it *)

Definition as_int (v : pyval) : option Z :=
  match v with
  | PyInt z => Some z
  | PyBool b => Some (Z.b2z b)
  | PyNone | PyStr _ | PyList _ => None
  end.

Definition carrierName (k : Carrier) : string :=
  match k with
  | CarrierA => "CarrierA"
  | CarrierB => "CarrierB"
  | Unknown => "Unknown"
  end.

Definition stageName (s : Stage) : string :=
  match s with
  | Created => "Created"
  | InTransit => "InTransit"
  | OutForDelivery => "OutForDelivery"
  | Delivered => "Delivered"
  | Exception => "Exception"
  | UnknownStage => "Unknown"
  end.

Definition pyTime (t : option nat) : pyval :=
  match t with
  | Some n => PyInt (Z.of_nat n)
  | None => PyNone
  end.

Definition pyEvent (e : StatusEvent) : pyval :=
  PyList [match timestampUTC e with Some t => PyStr t | None => PyNone end;
          PyStr (locationText e); PyStr (descriptionText e);
          PyStr (stageName (canonicalStage e))].

Definition pyTimeline (tl : Timeline) : pyval := PyList (map pyEvent tl).

Definition pySummary (x : Summary) : pyval :=
  PyList [PyInt (sum_packageID x); PyStr (sum_trackingCode x);
          PyStr (carrierName (sum_carrier x)); PyStr (stageName (sum_latestStage x));
          pyTime (sum_lastRefreshedAt x)].

(** Modelled from the spec: the inbound interface of the core,
    addPackage(trackingCode: string, userID: integer) -> boolean success,
    listPackages(userID) -> sequence of summaries, getPackageDetail(packageID:
    integer, userID: integer) -> Timeline | absent, under the method names
    [main.py] calls them by.  A userID that is not an integer names no user. *)
Definition corePackageHandler : PackageHandler World :=
  {| createNewPackage := fun c userID w =>
       match as_int userID with
       | Some u => let '(added, w') := addPackage c u w in (PyBool added, w')
       | None => (PyBool false, w)
       end;
     getListOfPackages := fun userID w =>
       match as_int userID with
       | Some u => (PyList (map pySummary (listPackages u w)), w)
       | None => (PyList [], w)
       end;
     getPackageData := fun id userID w =>
       match as_int userID with
       | Some u =>
           match getPackageDetail id u w with
           | (Some tl, w') => (pyTimeline tl, w')
           | (None, w') => (PyNone, w')
           end
       | None => (PyNone, w)
       end |}.

End Coordinator.

End Core.

(** * Fixtures

    A concrete configuration of the core and of the collaborators, used to
    run the statements below on actual inputs. *)

Module Sample.

Import Core.

Definition classify (c : string) : Carrier :=
  if String.prefix "1Z" c then CarrierA else Unknown.

Definition pickedUp : StatusEvent :=
  {| timestampUTC := Some "2024-01-01T10:00Z"; locationText := "Origin";
     descriptionText := "Picked up"; canonicalStage := Created |}.

Definition inTransit : StatusEvent :=
  {| timestampUTC := Some "2024-01-02T09:00Z"; locationText := "Hub";
     descriptionText := "In transit"; canonicalStage := InTransit |}.

Definition normalize (raw : RawResponse) (k : Carrier) : Timeline + ParseError :=
  if String.eqb raw "" then inr StatusContainerAbsent else inl [pickedUp; inTransit].

Definition threshold : nat := 60.
Definition scrapeTimeout : nat := 10.

Definition siteUp (k : Carrier) (c : string) (timeout : nat) : RawResponse + ErrorKind :=
  inl "<ul id=status>...</ul>".

Definition siteDown (k : Carrier) (c : string) (timeout : nat) : RawResponse + ErrorKind :=
  inr CarrierUnavailable.

Definition handler : PackageHandler World :=
  corePackageHandler classify normalize threshold scrapeTimeout.

(** An authenticator with one account and one pending registration. *)
Definition authenticator : Authenticator World :=
  {| verifyLogin := fun email password w =>
       (if String.eqb email "ann@example.org" && String.eqb password "secret"
        then PyInt 1 else PyBool false, w);
     createNewPendingUser := fun email password w =>
       (if String.eqb email "ann@example.org" then PyBool false else PyInt 2, w);
     createNewUser := fun token w =>
       (if String.eqb token "tok-2" then PyInt 2 else PyBool false, w);
     sendEmailVerificationEmail := fun email w =>
       (PyBool (String.eqb email "bob@example.org"), w) |}.

Definition upcode : string := "1Z999AA10123456784".

Definition world0 : World := {| store := emptyStore; clock := 100; fetchRaw := siteUp |}.

(** The world after user 1 has added [upcode]. *)
Definition world1 : World := (addPackage classify normalize threshold scrapeTimeout upcode 1 world0).2.

(** The same store an hour and a bit later, with the carrier site down. *)
Definition world2 : World := {| store := store world1; clock := 200; fetchRaw := siteDown |}.

(** The row of [upcode] in [world1]. *)
Definition row1 : Package :=
  {| packageID := 1; code := upcode; carrier := CarrierA;
     timeline := [pickedUp; inTransit];
     refreshState := {| lastRefreshedAt := Some 100%nat; lastRefreshSucceeded := true;
                        failedKind := None; inFlight := false |} |}.

(** Two moments at which the carrier site is down. *)
Definition outage : list (nat * (Carrier -> string -> nat -> RawResponse + ErrorKind)) :=
  [(200%nat, siteDown); (300%nat, siteDown)].

(** The store of [world1] at time 200, nothing running. *)
Definition system1 : System :=
  {| sys_store := store world1; sys_clock := 200; scrapeCalls := []; running := ∅ |}.

(** Three callers ask for a refresh while the first scrape runs, it times
    out, and two more ask within the minute. *)
Definition burst : list event :=
  [Trigger 1; Trigger 1; Trigger 1; Finish 1 (inr Timeout); Trigger 1; Tick; Trigger 1].

Definition anonymous (w : World) : State World :=
  Build_State ∅ [] [] w.

Definition loggedIn (user : Z) (w : World) : State World :=
  Build_State {[ "userID" := PyInt user ]} [] [] w.

Definition addForm (c : string) : AddPackageForm := {| add_valid := true; trackingCode := c |}.
Definition blankForm : AddPackageForm := {| add_valid := false; trackingCode := "" |}.

End Sample.

(** * Runs of requests *)

(** The routes declared under [@login_required]. *)
Definition protected (r : request) : bool :=
  match r with
  | ReqLogout | ReqPackageList _ | ReqPackageDetails _ => true
  | _ => false
  end.

(** The values [>] compares with an integer without raising. *)
Definition is_number (v : pyval) : bool :=
  match v with
  | PyInt _ | PyBool _ => true
  | PyNone | PyStr _ | PyList _ => false
  end.



Section Runs.

Context {W : Type}.
Variable packageHandler : PackageHandler W.
Variable authenticator : Authenticator W.

(** Requests served one after the other, each in the state the one before
    left. *)
Fixpoint serve (rs : list request) (st : State W) : list (outcome response) * State W :=
  match rs with
  | [] => ([], st)
  | r :: rs' =>
      let '(o, st1) := dispatch packageHandler authenticator r st in
      let '(os, st2) := serve rs' st1 in
      (o :: os, st2)
  end.


(** The authenticator accepts nobody: verifyLogin and createNewUser only
    return falsy values. *)
Definition rejects_all : Prop :=
  forall w : W,
    (forall email password : string, truthy (verifyLogin authenticator email password w).1 = false) /\
    (forall token : string, truthy (createNewUser authenticator token w).1 = false).

(** Requests answered one after the other by Flask, each in the state the
    one before left. *)
Fixpoint answerAll (rs : list request) (st : State W) : list (outcome response) * State W :=
  match rs with
  | [] => ([], st)
  | r :: rs' =>
      let '(o, st1) := respond packageHandler authenticator r st in
      let '(os, st2) := answerAll rs' st1 in
      (o :: os, st2)
  end.



(** The call a request makes into a collaborator is the one of its route, at
    the arguments of the request. *)
Definition call_of_route (r : request) (c : call) : Prop :=
  match c with
  | CreateNewPackage code _ =>
      exists form, r = ReqPackageList form /\ add_valid form = true /\ code = trackingCode form
  | GetListOfPackages _ =>
      exists form, r = ReqPackageList form /\ add_valid form = false
  | GetPackageData id _ => r = ReqPackageDetails id
  | VerifyLogin email password =>
      exists form, r = ReqLogin form /\ login_valid form = true /\
                   email = login_email form /\ password = login_password form
  | CreateNewPendingUser email password =>
      exists form, r = ReqRegister form /\ register_valid form = true /\
                   email = register_email form /\ password = register_password form
  | CreateNewUser token => r = ReqConfirmUserEmail token
  | SendEmailVerificationEmail email => r = ReqResendEmail 1 email
  end.

End Runs.

(** More fixtures: a session whose "userID" is not a number, and one whose
    "userID" is a negative number. *)
Definition strangeSession (w : Core.World) : State Core.World :=
  Build_State {[ "userID" := PyStr "ann" ]} [] [] w.

Definition loginForm (email password : string) : LoginForm :=
  {| login_valid := true; login_email := email; login_password := password |}.

Definition registerForm (email password : string) : RegisterForm :=
  {| register_valid := true; register_email := email; register_password := password |}.

(** The world after user 1 has added a code no carrier is known for; its
    package data is an empty list. *)
Definition world3 : Core.World :=
  (Core.addPackage Sample.classify Sample.normalize Sample.threshold Sample.scrapeTimeout
     "XYZ" 1 Sample.world0).2.

(** An authenticator that accepts nobody. *)
Definition closedAuthenticator : Authenticator Core.World :=
  {| verifyLogin := fun email password w => (PyBool false, w);
     createNewPendingUser := fun email password w => (PyBool false, w);
     createNewUser := fun token w => (PyNone, w);
     sendEmailVerificationEmail := fun email w => (PyBool false, w) |}.

(** A visitor who tries everything without an account. *)
Definition intrusion : list request :=
  [ReqPackageList (Sample.addForm Sample.upcode); ReqLogin (loginForm "eve@example.org" "guess");
   ReqPackageDetails 1; ReqConfirmUserEmail "tok-0"; ReqLogout;
   ReqPackageList Sample.blankForm].

(** A visit: log in, add a package, look at it, log out, look again. *)
Definition visit : list request :=
  [ReqLogin (loginForm "ann@example.org" "secret"); ReqPackageList (Sample.addForm Sample.upcode);
   ReqPackageDetails 1; ReqLogout; ReqPackageDetails 1].

(** An authenticator whose only account has a negative ID. *)
Definition negativeAuthenticator : Authenticator Core.World :=
  {| verifyLogin := fun email password w => (PyInt (-1), w);
     createNewPendingUser := fun email password w => (PyBool false, w);
     createNewUser := fun token w => (PyInt (-1), w);
     sendEmailVerificationEmail := fun email w => (PyBool false, w) |}.

(** * Properties of the request handlers *)

Section HandlerFacts.

Context {W : Type}.
Variable packageHandler : PackageHandler W.
Variable authenticator : Authenticator W.

Definition deniedState (st : State W) : State W :=
  Build_State (session st) (flashes st ++ [("You need to log in to do that!", "danger")])
              (calls st) (world st).

(** Every call into the package core among [new] names, as the user it acts
    for, the value stored under session["userID"] in [st], and that value is
    greater than zero. *)
Definition carry_session_user (st : State W) (new : list call) : Prop :=
  forall (c : call) (u : pyval),
    c ∈ new -> core_identity c = Some u ->
    session st !! "userID" = Some u /\ gt_int u 0 = Return true.

Lemma login_required_absent {A : Type} (func : A -> M response) (args : A) (st : State W) :
  session st !! "userID" = None ->
  login_required func args st = (Return (Redirect "/login"), deniedState st).
Proof.
  intros Hnone.
  unfold login_required, bind, session_contains.
  rewrite Hnone. rewrite bool_decide_eq_false_2 by (intros [? ?]; discriminate).
  reflexivity.
Qed.

Lemma login_required_present {A : Type} (func : A -> M response) (args : A) (st : State W) (v : pyval) :
  session st !! "userID" = Some v ->
  login_required func args st =
    match gt_int v 0 with
    | Return true => func args st
    | Return false => (Return (Redirect "/login"), deniedState st)
    | Raise e => (Raise e, st)
    end.
Proof.
  intros Hsome.
  unfold login_required, bind, session_contains, session_get, lift_outcome.
  rewrite bool_decide_eq_true_2 by (rewrite Hsome; eauto).
  rewrite Hsome.
  destruct (gt_int v 0) as [[|]|]; reflexivity.
Qed.

(** C8. A route wrapped by [login_required] (packageList, viewPackage,
    logout): when the session has no "userID" key, or the value under it is
    not greater than zero, the answer is the redirect to the login page with
    the log-in warning flashed, whatever the wrapped function is, so its body
    does not run; when the value is greater than zero the wrapped function
    runs on the arguments of the request, in the state of the request. *)
Theorem login_required_guards_routes :
  forall (A : Type) (func : A -> M response) (args : A) (st : State W),
    ((session st !! "userID" = None \/
      exists v, session st !! "userID" = Some v /\ gt_int v 0 = Return false) ->
     login_required func args st = (Return (Redirect (url_for Login)), deniedState st)) /\
    ((exists v, session st !! "userID" = Some v /\ gt_int v 0 = Return true) ->
     login_required func args st = func args st) /\
    packageList packageHandler authenticator = login_required (packageList_func packageHandler authenticator) /\
    viewPackage packageHandler authenticator = login_required (viewPackage_func packageHandler authenticator) /\
    @logout W = login_required logout_func.
Proof.
  intros A func args st. repeat split.
  - intros [Hnone | (v & Hsome & Hgt)].
    + now apply login_required_absent.
    + rewrite (login_required_present _ _ _ _ Hsome), Hgt. reflexivity.
  - intros (v & Hsome & Hgt).
    rewrite (login_required_present _ _ _ _ Hsome), Hgt. reflexivity.
Qed.

(** C7. The password-reset resend path is a stub: with resendType 2 the
    handler calls no collaborator, flashes nothing, leaves the session and the
    collaborators' state as they were, and returns no response. *)
Theorem resendEmail_password_reset_is_stub :
  forall (email : string) (st : State W),
    resendEmail packageHandler authenticator 2 email st = (Return NoResponse, st).
Proof. intros email st. reflexivity. Qed.

(** C10. With resendType 1 the handler returns the rendered
    verify-your-email page whether sendEmailVerificationEmail(email) succeeds
    or not; a failure only adds the flashed warning. *)
Theorem resendEmail_verification_always_renders :
  forall (email : string) (st : State W),
    let '(sent, w') := sendEmailVerificationEmail authenticator email (world st) in
    resendEmail packageHandler authenticator 1 email st =
      (Return (Rendered "verifyYourEmail.html" [("email", ArgVal (PyStr email))]),
       Build_State (session st)
         (flashes st ++
            (if truthy sent then []
             else [("Something went wrong and we couldn't resend the email. You may need to re-register.",
                    "danger")]))
         (calls st ++ [SendEmailVerificationEmail email]) w').
Proof.
  intros email st.
  destruct (sendEmailVerificationEmail authenticator email (world st)) as [sent w'] eqn:Hsend.
  unfold resendEmail, bind, invoke, flash, ret, render_template. simpl.
  rewrite Hsend.
  destruct (truthy sent); simpl; [rewrite app_nil_r|]; reflexivity.
Qed.

(** confirmUserEmail, step by step: a truthy result of createNewUser(token)
    is stored under "userID" and greeted, a falsy one is answered with the
    warning; either way one message is flashed. *)
Lemma confirmUserEmail_run :
  forall (token : string) (st : State W),
    let '(userID, w') := createNewUser authenticator token (world st) in
    confirmUserEmail packageHandler authenticator token st =
      if truthy userID
      then (Return (Redirect (url_for PackageList)),
            Build_State (<["userID" := userID]> (session st))
              (flashes st ++ [("Verification successful! You are now logged in.", "success")])
              (calls st ++ [CreateNewUser token]) w')
      else (Return (Redirect (url_for Register)),
            Build_State (session st)
              (flashes st ++ [("This link is either invalid or has expired. Please re-register.", "warning")])
              (calls st ++ [CreateNewUser token]) w').
Proof.
  intros token st.
  destruct (createNewUser authenticator token (world st)) as [userID w'] eqn:Hnew.
  unfold confirmUserEmail, bind, invoke. simpl.
  rewrite Hnew.
  destruct (truthy userID); reflexivity.
Qed.

Lemma flask_session_other (st : State W) (k : string) :
  k <> "_flashes" -> flask_session st !! k = session st !! k.
Proof.
  intros Hk. unfold flask_session.
  destruct (flashes st); [apply lookup_delete_ne | apply lookup_insert_ne]; congruence.
Qed.

Lemma flask_session_flashes (st : State W) :
  flask_session st !! "_flashes" =
    match flashes st with
    | [] => None
    | fl => Some (PyList (map pyFlash fl))
    end.
Proof.
  unfold flask_session.
  destruct (flashes st); [apply lookup_delete_eq | apply lookup_insert_eq].
Qed.

Lemma flask_session_flashed (s : gmap string pyval) (fl : list (string * string))
    (f : string * string) (cl : list call) (w : W) :
  flask_session (Build_State s (fl ++ [f]) cl w) !! "_flashes"
    = Some (PyList (map pyFlash (fl ++ [f]))).
Proof. rewrite flask_session_flashes. simpl. now destruct fl. Qed.

(** C9 (amended). confirmUserEmail either logs the user in or leaves the
    user of the session untouched: a truthy result of createNewUser(token) is
    stored under session["userID"], no other key but "_flashes" changes, and
    the response redirects to the package list; on a falsy result no key of
    the session other than "_flashes" changes, the warning is appended to the
    messages under "_flashes", and the response redirects to the registration
    page. *)
Theorem confirmUserEmail_logs_in_or_keeps_user :
  forall (token : string) (st : State W),
    let userID := (createNewUser authenticator token (world st)).1 in
    let out := confirmUserEmail packageHandler authenticator token st in
    if truthy userID
    then out.1 = Return (Redirect (url_for PackageList)) /\
         flask_session out.2 !! "userID" = Some userID /\
         (forall k, k <> "userID" -> k <> "_flashes" ->
                    flask_session out.2 !! k = flask_session st !! k)
    else out.1 = Return (Redirect (url_for Register)) /\
         (forall k, k <> "_flashes" -> flask_session out.2 !! k = flask_session st !! k) /\
         flask_session out.2 !! "_flashes" =
           Some (PyList (map pyFlash
                   (flashes st ++
                    [("This link is either invalid or has expired. Please re-register.",
                      "warning")]))).
Proof.
  intros token st userID out. subst userID out.
  pose proof (confirmUserEmail_run token st) as Hrun.
  destruct (createNewUser authenticator token (world st)) as [userID w']. simpl.
  rewrite Hrun. destruct (truthy userID); simpl.
  - split; [reflexivity|]. split.
    + rewrite flask_session_other by discriminate. apply lookup_insert_eq.
    + intros k Hk Hfl. rewrite !flask_session_other by exact Hfl. simpl.
      now apply lookup_insert_ne.
  - split; [reflexivity|]. split.
    + intros k Hfl. now rewrite !flask_session_other by exact Hfl.
    + apply flask_session_flashed.
Qed.

(** A validated add-package request of a logged-in user, step by step. *)
Lemma packageList_add_request :
  forall (form : AddPackageForm) (st : State W) (userID : pyval),
    session st !! "userID" = Some userID ->
    gt_int userID 0 = Return true ->
    add_valid form = true ->
    let '(added, w') := createNewPackage packageHandler (trackingCode form) userID (world st) in
    packageList packageHandler authenticator form st =
      (Return (Redirect (url_for PackageList)),
       Build_State (session st)
         (flashes st ++
            [if truthy added
             then ("Package added successfully!", "success")
             else ("You have already added that package!", "warning")])
         (calls st ++ [CreateNewPackage (trackingCode form) userID]) w').
Proof.
  intros form st userID Hsome Hgt Hvalid.
  destruct (createNewPackage packageHandler (trackingCode form) userID (world st))
    as [added w'] eqn:Hadd.
  unfold packageList.
  rewrite (login_required_present _ _ _ _ Hsome), Hgt.
  unfold packageList_func, bind, session_get, invoke. rewrite Hvalid, Hsome. simpl.
  rewrite Hadd.
  destruct (truthy added); reflexivity.
Qed.

(** C1. For every tracking code and logged-in user, a validated add-package
    request calls createNewPackage(trackingCode, userID) once, flashes
    "Package added successfully!" exactly when the result is true and "You
    have already added that package!" when it is false, and redirects to the
    package list. *)
Theorem packageList_reports_add_outcome :
  forall (form : AddPackageForm) (st : State W) (userID : pyval),
    session st !! "userID" = Some userID ->
    gt_int userID 0 = Return true ->
    add_valid form = true ->
    let '(added, w') := createNewPackage packageHandler (trackingCode form) userID (world st) in
    packageList packageHandler authenticator form st =
      (Return (Redirect (url_for PackageList)),
       Build_State (session st)
         (flashes st ++
            [if truthy added
             then ("Package added successfully!", "success")
             else ("You have already added that package!", "warning")])
         (calls st ++ [CreateNewPackage (trackingCode form) userID]) w').
Proof. exact packageList_add_request. Qed.

Lemma carry_nil (st : State W) : carry_session_user st [].
Proof. intros c u Hin. inversion Hin. Qed.

Lemma carry_other (st : State W) (c : call) :
  core_identity c = None -> carry_session_user st [c].
Proof.
  intros Hnone c' u Hin Hid.
  apply list_elem_of_singleton in Hin. subst c'. congruence.
Qed.

Lemma carry_core (st : State W) (c : call) (u : pyval) :
  core_identity c = Some u ->
  session st !! "userID" = Some u -> gt_int u 0 = Return true ->
  carry_session_user st [c].
Proof.
  intros Hc Hsome Hgt c' u' Hin Hid.
  apply list_elem_of_singleton in Hin. subst c'.
  rewrite Hc in Hid. injection Hid as <-. now split.
Qed.

Lemma login_required_calls {A : Type} (func : A -> M response) (args : A) (st : State W) :
  (forall v, session st !! "userID" = Some v -> gt_int v 0 = Return true ->
     exists new : list call,
       calls (func args st).2 = (calls st ++ new)%list /\ carry_session_user st new) ->
  exists new : list call,
    calls (login_required func args st).2 = (calls st ++ new)%list /\ carry_session_user st new.
Proof.
  intros Hfunc.
  destruct (session st !! "userID") as [v|] eqn:Hsome.
  - rewrite (login_required_present _ _ _ _ Hsome).
    destruct (gt_int v 0) as [[|]|] eqn:Hgt.
    + now apply (Hfunc v).
    + exists []. simpl. rewrite app_nil_r. auto using carry_nil.
    + exists []. simpl. rewrite app_nil_r. auto using carry_nil.
  - rewrite (login_required_absent _ _ _ Hsome).
    exists []. simpl. rewrite app_nil_r. auto using carry_nil.
Qed.

(** C6. Whatever the request and the state it arrives in, every call the
    web layer makes into the package core (createNewPackage,
    getListOfPackages, getPackageData) names as user the value stored under
    session["userID"] when the request arrived, and is made only when that
    value is greater than zero. *)
Theorem core_calls_carry_session_userID :
  forall (r : request) (st : State W),
    exists new : list call,
      calls (dispatch packageHandler authenticator r st).2 = (calls st ++ new)%list /\
      carry_session_user st new.
Proof.
  intros r st. destruct r as [|form| |form|form|packageID|token|resendType email]; simpl.
  - exists []. simpl. rewrite app_nil_r. auto using carry_nil.
  - unfold login, bind, invoke. destruct (login_valid form); simpl.
    + destruct (verifyLogin _ _ _ _) as [v w']. simpl.
      exists [VerifyLogin (login_email form) (login_password form)].
      destruct (truthy v); simpl; auto using carry_other.
    + exists []. rewrite app_nil_r. auto using carry_nil.
  - apply login_required_calls. intros v Hsome Hgt.
    exists []. simpl. rewrite app_nil_r. auto using carry_nil.
  - unfold register, bind, invoke. destruct (register_valid form); simpl.
    + destruct (createNewPendingUser _ _ _ _) as [v w']. simpl.
      exists [CreateNewPendingUser (register_email form) (register_password form)].
      destruct (truthy v); simpl; auto using carry_other.
    + exists []. rewrite app_nil_r. auto using carry_nil.
  - apply login_required_calls. intros v Hsome Hgt.
    unfold packageList_func.
    destruct (add_valid form); unfold bind, session_get, invoke; rewrite Hsome; simpl.
    + destruct (createNewPackage _ _ _ _) as [added w']. simpl.
      exists [CreateNewPackage (trackingCode form) v].
      destruct (truthy added); simpl; eauto using carry_core.
    + destruct (getListOfPackages _ _ _) as [lst w']. simpl.
      exists [GetListOfPackages v]. eauto using carry_core.
  - apply login_required_calls. intros v Hsome Hgt.
    unfold viewPackage_func, bind, session_get, invoke. rewrite Hsome. simpl.
    destruct (getPackageData _ _ _ _) as [data w']. simpl.
    exists [GetPackageData packageID v].
    destruct (truthy data); simpl; eauto using carry_core.
  - unfold confirmUserEmail, bind, invoke. simpl.
    destruct (createNewUser _ _ _) as [v w']. simpl.
    exists [CreateNewUser token].
    destruct (truthy v); simpl; auto using carry_other.
  - unfold resendEmail, bind, invoke.
    destruct (resendType =? 1).
    + simpl. destruct (sendEmailVerificationEmail _ _ _) as [v w']. simpl.
      exists [SendEmailVerificationEmail email].
      destruct (truthy v); simpl; auto using carry_other.
    + exists []. destruct (resendType =? 2); simpl; rewrite app_nil_r; auto using carry_nil.
Qed.

(** What viewPackage does once the user is logged in: one getPackageData call
    for that user, then the redirect when the result is falsy and the
    rendered page otherwise. *)
Lemma viewPackage_logged_in (packageID : Z) (st : State W) (userID : pyval) :
  session st !! "userID" = Some userID ->
  gt_int userID 0 = Return true ->
  viewPackage packageHandler authenticator packageID st =
    let '(packageData, w') := getPackageData packageHandler packageID userID (world st) in
    if truthy packageData
    then (Return (Rendered "packageData.html" [("packageData", ArgVal packageData)]),
          Build_State (session st) (flashes st)
            (calls st ++ [GetPackageData packageID userID]) w')
    else (Return (Redirect (url_for PackageList)),
          Build_State (session st)
            (flashes st ++ [("You are not tracking that package. Add it!", "primary")])
            (calls st ++ [GetPackageData packageID userID]) w').
Proof.
  intros Hsome Hgt. unfold viewPackage.
  rewrite (login_required_present _ _ _ _ Hsome), Hgt.
  unfold viewPackage_func, bind, session_get, invoke. rewrite Hsome. simpl.
  destruct (getPackageData _ _ _ _) as [data w'].
  destruct (truthy data); reflexivity.
Qed.

End HandlerFacts.

(** * Properties of the modelled core *)

Section StoreFacts.

Import Core.

Lemma find_app_Some {A : Type} (f : A -> bool) (l1 l2 : list A) (x : A) :
  find f l1 = Some x -> find f (l1 ++ l2) = Some x.
Proof.
  induction l1 as [|a l1 IH]; simpl; [discriminate|].
  destruct (f a); auto.
Qed.

Lemma find_app_None {A : Type} (f : A -> bool) (l1 l2 : list A) :
  find f l1 = None -> find f (l1 ++ l2) = find f l2.
Proof.
  induction l1 as [|a l1 IH]; simpl; [reflexivity|].
  destruct (f a); [discriminate | auto].
Qed.

Lemma find_fmap {A B : Type} (f : B -> bool) (g : A -> B) (l : list A) :
  find f (map g l) = g <$> find (fun a => f (g a)) l.
Proof.
  induction l as [|a l IH]; simpl; [reflexivity|].
  destruct (f (g a)); auto.
Qed.

Lemma find_ext_in {A : Type} (f g : A -> bool) (l : list A) :
  (forall a, f a = g a) -> find f l = find g l.
Proof.
  intros Hfg. induction l as [|a l IH]; simpl; [reflexivity|].
  rewrite Hfg, IH. reflexivity.
Qed.

Lemma lookupPackage_ident (c : string) (k : Carrier) (st : Store) :
  ident <$> lookupPackage c k st = find (key_is c k) (map ident (packages st)).
Proof. unfold lookupPackage. rewrite find_fmap. reflexivity. Qed.

Lemma packageByID_ident (id : Z) (st : Store) :
  ident <$> packageByID id st = find (id_is id) (map ident (packages st)).
Proof. unfold packageByID. rewrite find_fmap. reflexivity. Qed.

Lemma updateTimeline_idents (p : Package) (tl : Timeline) (rs : RefreshState) (st : Store) :
  map ident (packages (updateTimeline p tl rs st)) = map ident (packages st).
Proof.
  unfold updateTimeline. simpl. rewrite map_map. apply map_ext.
  intros q. destruct (has_id (packageID p) q); reflexivity.
Qed.

Lemma packageByID_updateTimeline (id : Z) (p : Package) (tl : Timeline) (rs : RefreshState) (st : Store) :
  packageByID id (updateTimeline p tl rs st) =
    if packageID p =? id
    then (fun q => {| packageID := packageID q; code := code q; carrier := carrier q;
                      timeline := tl; refreshState := rs |}) <$> packageByID id st
    else packageByID id st.
Proof.
  unfold packageByID, updateTimeline. simpl.
  induction (packages st) as [|q l IH]; simpl.
  - destruct (packageID p =? id); reflexivity.
  - unfold has_id in *.
    destruct (Z.eqb_spec (packageID q) (packageID p)) as [Hqp|Hqp]; simpl;
      destruct (Z.eqb_spec (packageID q) id) as [Hqid|Hqid];
      destruct (Z.eqb_spec (packageID p) id) as [Hpid|Hpid];
      simpl; try congruence; try reflexivity; exact IH.
Qed.

Lemma extends_refl (st : Store) : extends st st.
Proof. split; reflexivity. Qed.

Lemma extends_trans (st1 st2 st3 : Store) :
  extends st1 st2 -> extends st2 st3 -> extends st1 st3.
Proof.
  intros [H1 H2] [H3 H4]. split.
  - now transitivity (map ident (packages st2)).
  - now transitivity (subscriptions st2).
Qed.

Lemma extends_same (st st' : Store) :
  map ident (packages st') = map ident (packages st) ->
  subscriptions st' = subscriptions st ->
  extends st st'.
Proof. intros Hp Hs. unfold extends. rewrite Hp, Hs. split; reflexivity. Qed.

Lemma extends_lookupPackage (c : string) (k : Carrier) (st st' : Store) (p : Package) :
  extends st st' -> lookupPackage c k st = Some p ->
  exists p', lookupPackage c k st' = Some p' /\ ident p' = ident p.
Proof.
  intros [[l Hl] _] Hfind.
  assert (Hi : ident <$> lookupPackage c k st' = Some (ident p)).
  { rewrite lookupPackage_ident, Hl. apply find_app_Some.
    rewrite <- lookupPackage_ident, Hfind. reflexivity. }
  destruct (lookupPackage c k st') as [p'|]; [|discriminate].
  exists p'. split; [reflexivity|]. simpl in Hi. congruence.
Qed.

Lemma extends_packageByID (id : Z) (st st' : Store) (p : Package) :
  extends st st' -> packageByID id st = Some p ->
  exists p', packageByID id st' = Some p' /\ ident p' = ident p.
Proof.
  intros [[l Hl] _] Hfind.
  assert (Hi : ident <$> packageByID id st' = Some (ident p)).
  { rewrite packageByID_ident, Hl. apply find_app_Some.
    rewrite <- packageByID_ident, Hfind. reflexivity. }
  destruct (packageByID id st') as [p'|]; [|discriminate].
  exists p'. split; [reflexivity|]. simpl in Hi. congruence.
Qed.

Lemma extends_links (id user : Z) (st st' : Store) :
  extends st st' ->
  existsb (links id user) (subscriptions st) = true ->
  existsb (links id user) (subscriptions st') = true.
Proof.
  intros [_ [l Hl]] Hex. rewrite Hl, existsb_app, Hex. reflexivity.
Qed.

Lemma lookupPackage_key (c : string) (k : Carrier) (st : Store) (p : Package) :
  lookupPackage c k st = Some p -> code p = c /\ carrier p = k.
Proof.
  intros Hfind. apply find_some in Hfind as [_ Hkey].
  unfold has_key in Hkey. apply andb_prop in Hkey as [Hc Hk].
  split; eapply bool_decide_eq_true_1; eauto.
Qed.

Lemma packageByID_id (id : Z) (st : Store) (p : Package) :
  packageByID id st = Some p -> packageID p = id.
Proof.
  intros Hfind. apply find_some in Hfind as [_ Hid]. now apply Z.eqb_eq in Hid.
Qed.

(** *** findOrCreatePackage *)

Lemma findOrCreatePackage_found (c : string) (k : Carrier) (st : Store) (p : Package) :
  lookupPackage c k st = Some p -> findOrCreatePackage c k st = (p, st).
Proof. intros Hfind. unfold findOrCreatePackage. now rewrite Hfind. Qed.

Lemma findOrCreatePackage_lookup (c : string) (k : Carrier) (st : Store) :
  lookupPackage c k (findOrCreatePackage c k st).2 = Some (findOrCreatePackage c k st).1.
Proof.
  unfold findOrCreatePackage.
  destruct (lookupPackage c k st) as [p|] eqn:Hfind; simpl; [exact Hfind|].
  unfold lookupPackage in *. simpl. rewrite find_app_None by exact Hfind.
  simpl. unfold has_key. simpl. rewrite !bool_decide_eq_true_2 by reflexivity.
  reflexivity.
Qed.

Lemma findOrCreatePackage_extends (c : string) (k : Carrier) (st : Store) :
  extends st (findOrCreatePackage c k st).2.
Proof.
  unfold findOrCreatePackage.
  destruct (lookupPackage c k st) as [p|]; simpl; [apply extends_refl|].
  split; simpl; [|reflexivity]. rewrite map_app. now apply prefix_app_r.
Qed.

Lemma findOrCreatePackage_twice (c : string) (k : Carrier) (st : Store) :
  findOrCreatePackage c k (findOrCreatePackage c k st).2 = findOrCreatePackage c k st.
Proof.
  rewrite (findOrCreatePackage_found c k _ _ (findOrCreatePackage_lookup c k st)).
  now destruct (findOrCreatePackage c k st).
Qed.

Lemma key_of_ident (l : list Package) :
  map key l = map (fun i : Z * string * Carrier => (i.1.2, i.2)) (map ident l).
Proof. rewrite map_map. reflexivity. Qed.

Lemma unique_keys_same (st st' : Store) :
  map ident (packages st') = map ident (packages st) -> unique_keys st -> unique_keys st'.
Proof. unfold unique_keys. rewrite !key_of_ident. now intros ->. Qed.

Lemma lookupPackage_None_key (c : string) (k : Carrier) (st : Store) :
  lookupPackage c k st = None -> (c, k) ∉ map key (packages st).
Proof.
  intros Hnone Hin. apply list_elem_of_In, in_map_iff in Hin as (p & Hkey & Hin).
  pose proof (find_none _ _ Hnone p Hin) as Hno.
  unfold has_key in Hno. injection Hkey as Hc Hk.
  rewrite !bool_decide_eq_true_2 in Hno by assumption. discriminate.
Qed.

Lemma findOrCreatePackage_unique (c : string) (k : Carrier) (st : Store) :
  unique_keys st -> unique_keys (findOrCreatePackage c k st).2.
Proof.
  unfold findOrCreatePackage, unique_keys.
  destruct (lookupPackage c k st) as [p|] eqn:Hfind; simpl; [auto|].
  intros Hnd. rewrite map_app. apply NoDup_app. repeat split; auto.
  - intros x Hx Hx'. simpl in Hx'. apply list_elem_of_singleton in Hx'. subst x.
    now apply (lookupPackage_None_key c k st Hfind).
  - simpl. apply NoDup_singleton.
Qed.

Lemma findOrCreatePackage_subscriptions (c : string) (k : Carrier) (st : Store) :
  subscriptions (findOrCreatePackage c k st).2 = subscriptions st.
Proof. unfold findOrCreatePackage. now destruct (lookupPackage c k st). Qed.

(** *** addSubscription *)

Lemma existsb_links (id user : Z) (l : list Subscription) :
  existsb (links id user) l = true <-> (id, user) ∈ map subscriber l.
Proof.
  rewrite existsb_exists, list_elem_of_In, in_map_iff. unfold links, subscriber.
  split; intros (s & H1 & H2); exists s.
  - apply andb_prop in H2 as [Hi Hu]. apply Z.eqb_eq in Hi, Hu. split; congruence.
  - injection H1 as Hi Hu. split; [assumption|]. now rewrite Hi, Hu, !Z.eqb_refl.
Qed.

Lemma addSubscription_packages (p : Package) (user : Z) (now : nat) (st : Store) :
  packages (addSubscription p user now st).2 = packages st.
Proof. unfold addSubscription. now destruct (existsb _ _). Qed.

Lemma addSubscription_extends (p : Package) (user : Z) (now : nat) (st : Store) :
  extends st (addSubscription p user now st).2.
Proof.
  unfold addSubscription. destruct (existsb _ _); simpl; [apply extends_refl|].
  split; simpl; [reflexivity | now apply prefix_app_r].
Qed.

Lemma addSubscription_linked (p : Package) (user : Z) (now : nat) (st : Store) :
  existsb (links (packageID p) user) (subscriptions (addSubscription p user now st).2) = true.
Proof.
  unfold addSubscription.
  destruct (existsb _ (subscriptions st)) eqn:Hex; simpl; [exact Hex|].
  rewrite existsb_app. simpl. unfold links at 2. simpl.
  rewrite !Z.eqb_refl. simpl. apply orb_true_r.
Qed.

Lemma addSubscription_unique (p : Package) (user : Z) (now : nat) (st : Store) :
  unique_subscriptions st -> unique_subscriptions (addSubscription p user now st).2.
Proof.
  unfold addSubscription, unique_subscriptions.
  destruct (existsb _ (subscriptions st)) eqn:Hex; simpl; [auto|].
  intros Hnd. rewrite map_app. apply NoDup_app. repeat split; auto.
  - intros x Hx Hx'. simpl in Hx'. apply list_elem_of_singleton in Hx'. subst x.
    apply existsb_links in Hx. unfold subscriber in Hx. simpl in Hx. congruence.
  - simpl. apply NoDup_singleton.
Qed.

(** Adding a Subscription that exists already changes nothing and says so. *)
Lemma addSubscription_again (p : Package) (user : Z) (now : nat) (st : Store) :
  existsb (links (packageID p) user) (subscriptions st) = true ->
  addSubscription p user now st = (AlreadyExists, st).
Proof. intros Hex. unfold addSubscription. now rewrite Hex. Qed.

(** *** Ids *)

Lemma id_of_ident (l : list Package) :
  map packageID l = map (fun i : Z * string * Carrier => i.1.1) (map ident l).
Proof. rewrite map_map. reflexivity. Qed.

Lemma unique_ids_same (st st' : Store) :
  map ident (packages st') = map ident (packages st) -> unique_ids st -> unique_ids st'.
Proof. unfold unique_ids. rewrite !id_of_ident. now intros ->. Qed.

Lemma subscriptions_refer_same (st st' : Store) :
  map ident (packages st') = map ident (packages st) ->
  subscriptions st' = subscriptions st ->
  subscriptions_refer st -> subscriptions_refer st'.
Proof.
  unfold subscriptions_refer. rewrite !id_of_ident. intros -> -> Href. exact Href.
Qed.

Lemma le_foldr_max (l : list Z) (x : Z) : x ∈ l -> x <= foldr Z.max 0 l.
Proof.
  induction l as [|y l IH]; intros Hin; [inversion Hin|].
  apply elem_of_cons in Hin as [->|Hin]; simpl; [lia|].
  specialize (IH Hin). lia.
Qed.

Lemma nextID_fresh (st : Store) : nextID st ∉ map packageID (packages st).
Proof.
  intros Hin. apply le_foldr_max in Hin. unfold nextID in Hin. lia.
Qed.

Lemma lookupPackage_in (c : string) (k : Carrier) (st : Store) (p : Package) :
  lookupPackage c k st = Some p -> p ∈ packages st.
Proof. intros Hfind. apply find_some in Hfind as [Hin _]. now apply list_elem_of_In. Qed.

Lemma in_ids (p : Package) (l : list Package) : p ∈ l -> packageID p ∈ map packageID l.
Proof. intros Hin. apply list_elem_of_In, in_map, list_elem_of_In, Hin. Qed.

(** With distinct ids, reading a row by its id gives that row. *)
Lemma packageByID_unique (st : Store) (p : Package) :
  unique_ids st -> p ∈ packages st -> packageByID (packageID p) st = Some p.
Proof.
  unfold unique_ids, packageByID.
  induction (packages st) as [|q l IH]; intros Hnd Hin; [inversion Hin|].
  simpl in *. apply NoDup_cons in Hnd as [Hq Hnd]. unfold has_id at 1.
  apply elem_of_cons in Hin as [->|Hin]; [now rewrite Z.eqb_refl|].
  destruct (Z.eqb_spec (packageID q) (packageID p)) as [Heq|_]; [|auto].
  exfalso. apply Hq. rewrite Heq. now apply in_ids.
Qed.

Lemma findOrCreatePackage_in (c : string) (k : Carrier) (st : Store) :
  (findOrCreatePackage c k st).1 ∈ packages (findOrCreatePackage c k st).2.
Proof. eapply lookupPackage_in, findOrCreatePackage_lookup. Qed.

Lemma findOrCreatePackage_ids (c : string) (k : Carrier) (st : Store) :
  unique_ids st /\ subscriptions_refer st ->
  unique_ids (findOrCreatePackage c k st).2 /\
  subscriptions_refer (findOrCreatePackage c k st).2.
Proof.
  unfold findOrCreatePackage, unique_ids, subscriptions_refer.
  destruct (lookupPackage c k st) as [p|]; simpl; [auto|].
  intros [Hnd Href]. rewrite map_app. simpl. split.
  - apply NoDup_app. repeat split; [exact Hnd | | apply NoDup_singleton].
    intros x Hx Hx'. apply list_elem_of_singleton in Hx'. subst x.
    now apply (nextID_fresh st).
  - intros s Hs. apply elem_of_app. left. now apply Href.
Qed.

Lemma addSubscription_refer (p : Package) (user : Z) (now : nat) (st : Store) :
  p ∈ packages st -> subscriptions_refer st ->
  subscriptions_refer (addSubscription p user now st).2.
Proof.
  unfold addSubscription, subscriptions_refer. intros Hp Href.
  destruct (existsb _ (subscriptions st)); simpl; [exact Href|].
  intros s Hs. apply elem_of_app in Hs as [Hs|Hs]; [now apply Href|].
  apply list_elem_of_singleton in Hs. subst s. simpl. now apply in_ids.
Qed.

(** A Subscription to the row that [nextID] would number cannot exist yet. *)
Lemma nextID_unlinked (user : Z) (st : Store) :
  subscriptions_refer st ->
  existsb (links (nextID st) user) (subscriptions st) = false.
Proof.
  intros Href. destruct (existsb _ _) eqn:Hex; [|reflexivity].
  apply existsb_exists in Hex as (s & Hs & Hlink).
  apply andb_prop in Hlink as [Hid _]. apply Z.eqb_eq in Hid.
  exfalso. apply (nextID_fresh st). rewrite <- Hid. apply Href. now apply list_elem_of_In.
Qed.

End StoreFacts.

Section CoordinatorFacts.

Import Core.

Variable classify : string -> Carrier.
Variable normalize : RawResponse -> Carrier -> Timeline + ParseError.
Variable threshold : nat.
Variable scrapeTimeout : nat.

Local Abbreviation refresh := (Core.refresh normalize threshold scrapeTimeout).
Local Abbreviation scrape := (Core.scrape normalize scrapeTimeout).
Local Abbreviation addPackage := (Core.addPackage classify normalize threshold scrapeTimeout).
Local Abbreviation getPackageDetail := (Core.getPackageDetail normalize threshold scrapeTimeout).
Local Abbreviation act := (Core.act classify normalize threshold scrapeTimeout).
Local Abbreviation acts := (Core.acts classify normalize threshold scrapeTimeout).
Local Abbreviation detailViews := (Core.detailViews normalize threshold scrapeTimeout).

Lemma scrape_ident (fetch : Carrier -> string -> nat -> RawResponse + ErrorKind) (p q : Package) :
  ident p = ident q -> scrape fetch p = scrape fetch q.
Proof.
  unfold ident, Core.scrape. intros Hpq.
  injection Hpq as _ Hcode Hcarrier. now rewrite Hcode, Hcarrier.
Qed.

Lemma finishRefresh_shape (now : nat) (p : Package) (result : Timeline + ErrorKind) (st : Store) :
  map ident (packages (finishRefresh now p result st)) = map ident (packages st) /\
  subscriptions (finishRefresh now p result st) = subscriptions st.
Proof.
  destruct result; unfold finishRefresh; split;
    solve [apply updateTimeline_idents | reflexivity].
Qed.

Lemma beginRefresh_shape (now : nat) (p : Package) (st st1 : Store) :
  beginRefresh threshold now p st = Some st1 ->
  map ident (packages st1) = map ident (packages st) /\ subscriptions st1 = subscriptions st.
Proof.
  unfold beginRefresh. destruct (wantsScrape threshold now p); [|discriminate].
  intros [= <-]. split; [apply updateTimeline_idents | reflexivity].
Qed.

Lemma refresh_shape (id : Z) (w : World) :
  map ident (packages (store (refresh id w))) = map ident (packages (store w)) /\
  subscriptions (store (refresh id w)) = subscriptions (store w) /\
  clock (refresh id w) = clock w /\ fetchRaw (refresh id w) = fetchRaw w.
Proof.
  unfold Core.refresh.
  destruct (packageByID id (store w)) as [p|]; [|auto].
  destruct (beginRefresh threshold (clock w) p (store w)) as [st1|] eqn:Hbegin; [|auto].
  apply beginRefresh_shape in Hbegin as [Hp Hs]. simpl.
  destruct (finishRefresh_shape (clock w) p (scrape (fetchRaw w) p) st1) as [Hp' Hs'].
  rewrite Hp', Hs', Hp, Hs. auto.
Qed.

(** What a refresh leaves of the Package it is asked for: the same row, with
    the Timeline it had or the Timeline of a successful scrape. *)
Lemma refresh_row (id : Z) (w : World) (p : Package) :
  packageByID id (store w) = Some p ->
  exists p',
    packageByID id (store (refresh id w)) = Some p' /\ ident p' = ident p /\
    (timeline p' = timeline p \/ scrape (fetchRaw w) p = inl (timeline p')) /\
    (forall kind, scrape (fetchRaw w) p = inr kind -> timeline p' = timeline p).
Proof.
  intros Hp. pose proof (packageByID_id _ _ _ Hp) as Hid.
  unfold Core.refresh. rewrite Hp. unfold beginRefresh.
  destruct (wantsScrape threshold (clock w) p).
  - simpl. destruct (scrape (fetchRaw w) p) as [tl|kind] eqn:Hscrape; simpl;
      rewrite !packageByID_updateTimeline, Hid, Z.eqb_refl, Hp; simpl;
      eexists; (split; [reflexivity|]); simpl; repeat split; auto; discriminate.
  - exists p. repeat split; auto.
Qed.

Lemma getPackageForUser_Some (id user : Z) (st : Store) (p : Package) :
  getPackageForUser id user st = Some p <->
  existsb (links id user) (subscriptions st) = true /\ packageByID id st = Some p.
Proof.
  unfold getPackageForUser.
  destruct (existsb (links id user) (subscriptions st)); split; intros H;
    try discriminate; try tauto. now destruct H.
Qed.

Lemma getPackageDetail_absent (id user : Z) (w : World) :
  existsb (links id user) (subscriptions (store w)) = false ->
  getPackageForUser id user (store w) = None /\
  getPackageDetail id user w = (None, w).
Proof.
  intros Hno. unfold Core.getPackageDetail, getPackageForUser. now rewrite Hno.
Qed.

Lemma getPackageDetail_world (id user : Z) (w : World) :
  (getPackageDetail id user w).2 = w \/ (getPackageDetail id user w).2 = refresh id w.
Proof.
  unfold Core.getPackageDetail.
  destruct (getPackageForUser id user (store w)); simpl; auto.
Qed.

Lemma getPackageDetail_served (id user : Z) (w : World) (p : Package) :
  getPackageForUser id user (store w) = Some p ->
  exists p',
    getPackageDetail id user w = (Some (timeline p'), refresh id w) /\
    getPackageForUser id user (store (refresh id w)) = Some p' /\ ident p' = ident p /\
    (timeline p' = timeline p \/ scrape (fetchRaw w) p = inl (timeline p')) /\
    (forall kind, scrape (fetchRaw w) p = inr kind -> timeline p' = timeline p).
Proof.
  intros Hp. unfold Core.getPackageDetail. rewrite Hp.
  apply getPackageForUser_Some in Hp as [Hlink Hrow].
  destruct (refresh_row id w p Hrow) as (p' & Hrow' & Hident & Hcases & Hfail).
  exists p'. rewrite Hrow'. simpl. repeat split; auto.
  apply getPackageForUser_Some. split; [|exact Hrow'].
  destruct (refresh_shape id w) as (_ & Hs & _). now rewrite Hs.
Qed.

Lemma detailViews_failing (id user : Z)
    (envs : list (nat * (Carrier -> string -> nat -> RawResponse + ErrorKind))) :
  forall (w : World) (p : Package),
    getPackageForUser id user (store w) = Some p ->
    (forall now fetch, (now, fetch) ∈ envs -> exists kind, scrape fetch p = inr kind) ->
    (detailViews id user envs w).1 = map (fun _ => Some (timeline p)) envs /\
    timeline <$> packageByID id (store (detailViews id user envs w).2) = Some (timeline p).
Proof.
  induction envs as [|[now fetch] envs IH]; intros w p Hp Hfail; simpl.
  - apply getPackageForUser_Some in Hp as [_ Hrow]. now rewrite Hrow.
  - set (w' := {| store := store w; clock := now; fetchRaw := fetch |}).
    destruct (getPackageDetail_served id user w' p Hp)
      as (p' & Hview & Hp' & Hident & _ & Hkeep).
    rewrite Hview.
    destruct (Hfail now fetch) as [kind Hkind]; [left|].
    specialize (Hkeep kind Hkind).
    destruct (IH (refresh id w') p' Hp') as [Hserved Hfinal].
    { intros now' fetch' Hin. destruct (Hfail now' fetch') as [kind' Hkind']; [now right|].
      exists kind'. now rewrite (scrape_ident fetch' p' p Hident). }
    destruct (detailViews id user envs (refresh id w')) as [rest w2]. simpl in *.
    rewrite Hserved, Hfinal, Hkeep. auto.
Qed.

(** C4. A refresh that fails, with whatever kind of ScrapeError or
    ParseError, leaves the stored Timeline as it was, and the detail views
    that follow serve that Timeline for as long as refreshing keeps failing;
    over all refresh outcomes the stored Timeline is either kept or replaced
    by the Timeline of a successful scrape. *)
Theorem failed_refresh_keeps_timeline :
  forall (id user : Z) (w : World) (p : Package)
         (envs : list (nat * (Carrier -> string -> nat -> RawResponse + ErrorKind))),
    getPackageForUser id user (store w) = Some p ->
    (forall kind, scrape (fetchRaw w) p = inr kind ->
       timeline <$> packageByID id (store (refresh id w)) = Some (timeline p)) /\
    ((forall now fetch, (now, fetch) ∈ envs -> exists kind, scrape fetch p = inr kind) ->
       (detailViews id user envs w).1 = map (fun _ => Some (timeline p)) envs /\
       timeline <$> packageByID id (store (detailViews id user envs w).2) = Some (timeline p)) /\
    (exists p', packageByID id (store (refresh id w)) = Some p' /\
       (timeline p' = timeline p \/ scrape (fetchRaw w) p = inl (timeline p'))).
Proof.
  intros id user w p envs Hp.
  pose proof Hp as Hrow. apply getPackageForUser_Some in Hrow as [_ Hrow].
  destruct (refresh_row id w p Hrow) as (p' & Hrow' & _ & Hcases & Hkeep).
  repeat split.
  - intros kind Hkind. rewrite Hrow'. simpl. now rewrite (Hkeep kind Hkind).
  - now apply detailViews_failing.
  - now apply detailViews_failing.
  - exists p'. auto.
Qed.

(** C2. When no Subscription links the user to the package, the
    package-detail operation returns an absent value, the same whether or not
    the package exists, and viewPackage answers with the redirect to the
    package list and renders nothing. *)
Theorem viewPackage_unsubscribed_redirects :
  forall (authenticator : Authenticator World) (id user : Z) (userID : pyval) (st : State World),
    session st !! "userID" = Some userID ->
    gt_int userID 0 = Return true ->
    as_int userID = Some user ->
    existsb (links id user) (subscriptions (store (world st))) = false ->
    getPackageForUser id user (store (world st)) = None /\
    getPackageDetail id user (world st) = (None, world st) /\
    getPackageData (corePackageHandler classify normalize threshold scrapeTimeout)
      id userID (world st) = (PyNone, world st) /\
    viewPackage (corePackageHandler classify normalize threshold scrapeTimeout) authenticator id st =
      (Return (Redirect (url_for PackageList)),
       Build_State (session st)
         (flashes st ++ [("You are not tracking that package. Add it!", "primary")])
         (calls st ++ [GetPackageData id userID]) (world st)).
Proof.
  intros authenticator id user userID st Hsome Hgt Hint Hno.
  destruct (getPackageDetail_absent id user (world st) Hno) as [Hnone Hdetail].
  assert (Hdata : getPackageData (corePackageHandler classify normalize threshold scrapeTimeout)
                    id userID (world st) = (PyNone, world st)).
  { simpl. now rewrite Hint, Hdetail. }
  repeat split; auto.
  rewrite (viewPackage_logged_in _ _ _ _ _ Hsome Hgt), Hdata. reflexivity.
Qed.

(** *** addPackage and histories *)

Lemma addPackage_shape (c : string) (user : Z) (w : World) :
  let found := findOrCreatePackage c (classify c) (store w) in
  let added := addSubscription found.1 user (clock w) found.2 in
  (addPackage c user w).1 =
    match added.1 with SubscriptionCreated => true | AlreadyExists => false end /\
  map ident (packages (store (addPackage c user w).2)) = map ident (packages found.2) /\
  subscriptions (store (addPackage c user w).2) = subscriptions added.2.
Proof.
  unfold Core.addPackage.
  destruct (findOrCreatePackage c (classify c) (store w)) as [p st1] eqn:Hfound. simpl.
  pose proof (addSubscription_packages p user (clock w) st1) as Hpk.
  destruct (addSubscription p user (clock w) st1) as [r st2]. simpl in *.
  split; [reflexivity|].
  destruct (negb _); simpl.
  - destruct (refresh_shape (packageID p) (setStore st2 w)) as (Hi & Hs & _).
    simpl in Hi, Hs. rewrite Hi, Hs, Hpk. auto.
  - rewrite Hpk. auto.
Qed.

Lemma addPackage_extends (c : string) (user : Z) (w : World) :
  extends (store w) (store (addPackage c user w).2).
Proof.
  destruct (addPackage_shape c user w) as (_ & Hi & Hs).
  pose proof (findOrCreatePackage_extends c (classify c) (store w)) as [Hp1 Hs1].
  pose proof (addSubscription_extends (findOrCreatePackage c (classify c) (store w)).1 user
                (clock w) (findOrCreatePackage c (classify c) (store w)).2) as [_ Hs2].
  split.
  - now rewrite Hi.
  - rewrite Hs. now transitivity (subscriptions (findOrCreatePackage c (classify c) (store w)).2).
Qed.

Lemma addPackage_unique (c : string) (user : Z) (w : World) :
  unique_keys (store w) /\ unique_subscriptions (store w) ->
  unique_keys (store (addPackage c user w).2) /\
  unique_subscriptions (store (addPackage c user w).2).
Proof.
  intros [Hk Hs]. destruct (addPackage_shape c user w) as (_ & Hi & Hsub). split.
  - eapply unique_keys_same; [exact Hi|]. now apply findOrCreatePackage_unique.
  - unfold unique_subscriptions. rewrite Hsub. apply addSubscription_unique.
    unfold unique_subscriptions. now rewrite findOrCreatePackage_subscriptions.
Qed.

Lemma addPackage_registers (c : string) (user : Z) (w : World) :
  exists p,
    lookupPackage c (classify c) (store (addPackage c user w).2) = Some p /\
    ident p = ident (findOrCreatePackage c (classify c) (store w)).1 /\
    existsb (links (packageID p) user) (subscriptions (store (addPackage c user w).2)) = true.
Proof.
  destruct (addPackage_shape c user w) as (_ & Hi & Hsub).
  pose proof (findOrCreatePackage_lookup c (classify c) (store w)) as Hfound.
  assert (Hx : ident <$> lookupPackage c (classify c) (store (addPackage c user w).2)
               = Some (ident (findOrCreatePackage c (classify c) (store w)).1)).
  { rewrite lookupPackage_ident, Hi, <- lookupPackage_ident, Hfound. reflexivity. }
  destruct (lookupPackage c (classify c) (store (addPackage c user w).2)) as [p|];
    [|discriminate].
  assert (Hid : ident p = ident (findOrCreatePackage c (classify c) (store w)).1)
    by (simpl in Hx; unfold ident in *; congruence).
  clear Hx. exists p. split; [reflexivity|]. split; [exact Hid|].
  rewrite Hsub. replace (packageID p) with (packageID (findOrCreatePackage c (classify c) (store w)).1).
  - apply addSubscription_linked.
  - unfold ident in Hid. congruence.
Qed.

Lemma act_extends (a : action) (w : World) : extends (store w) (store (act a w)).
Proof.
  destruct a as [c user|id user|user|now fetch]; simpl.
  - apply addPackage_extends.
  - destruct (getPackageDetail_world id user w) as [-> | ->]; [apply extends_refl|].
    destruct (refresh_shape id w) as (Hi & Hs & _). now apply extends_same.
  - apply extends_refl.
  - apply extends_refl.
Qed.

Lemma acts_extends (history : list action) (w : World) :
  extends (store w) (store (acts history w)).
Proof.
  revert w. induction history as [|a history IH]; intros w; simpl.
  - apply extends_refl.
  - eapply extends_trans; [apply act_extends | apply IH].
Qed.

Lemma act_unique (a : action) (w : World) :
  unique_keys (store w) /\ unique_subscriptions (store w) ->
  unique_keys (store (act a w)) /\ unique_subscriptions (store (act a w)).
Proof.
  destruct a as [c user|id user|user|now fetch]; simpl; auto.
  - apply addPackage_unique.
  - destruct (getPackageDetail_world id user w) as [-> | ->]; [auto|].
    destruct (refresh_shape id w) as (Hi & Hs & _). intros [Hk Hsub]. split.
    + now apply (unique_keys_same (store w)).
    + unfold unique_subscriptions. now rewrite Hs.
Qed.

Lemma acts_unique (history : list action) (w : World) :
  unique_keys (store w) /\ unique_subscriptions (store w) ->
  unique_keys (store (acts history w)) /\ unique_subscriptions (store (acts history w)).
Proof.
  revert w. induction history as [|a history IH]; intros w Hw; simpl; [exact Hw|].
  apply IH. now apply act_unique.
Qed.

Lemma initialWorld_unique (now : nat) (fetch : Carrier -> string -> nat -> RawResponse + ErrorKind) :
  unique_keys (store (initialWorld now fetch)) /\
  unique_subscriptions (store (initialWorld now fetch)).
Proof. split; apply NoDup_nil_2. Qed.

Lemma addPackage_ids (c : string) (user : Z) (w : World) :
  unique_ids (store w) /\ subscriptions_refer (store w) ->
  unique_ids (store (addPackage c user w).2) /\
  subscriptions_refer (store (addPackage c user w).2).
Proof.
  intros Hw. destruct (addPackage_shape c user w) as (_ & Hi & Hsub).
  destruct (findOrCreatePackage_ids c (classify c) (store w) Hw) as [Hnd Href]. split.
  - now apply (unique_ids_same (findOrCreatePackage c (classify c) (store w)).2).
  - eapply (subscriptions_refer_same
              (addSubscription (findOrCreatePackage c (classify c) (store w)).1 user (clock w)
                 (findOrCreatePackage c (classify c) (store w)).2).2).
    + now rewrite addSubscription_packages.
    + exact Hsub.
    + apply addSubscription_refer; [apply findOrCreatePackage_in | exact Href].
Qed.

Lemma act_ids (a : action) (w : World) :
  unique_ids (store w) /\ subscriptions_refer (store w) ->
  unique_ids (store (act a w)) /\ subscriptions_refer (store (act a w)).
Proof.
  destruct a as [c user|id user|user|now fetch]; simpl; auto.
  - apply addPackage_ids.
  - destruct (getPackageDetail_world id user w) as [-> | ->]; [auto|].
    destruct (refresh_shape id w) as (Hi & Hs & _). intros [Hnd Href]. split.
    + now apply (unique_ids_same (store w)).
    + now apply (subscriptions_refer_same (store w)).
Qed.

Lemma acts_ids (history : list action) (w : World) :
  unique_ids (store w) /\ subscriptions_refer (store w) ->
  unique_ids (store (acts history w)) /\ subscriptions_refer (store (acts history w)).
Proof.
  revert w. induction history as [|a history IH]; intros w Hw; simpl; [exact Hw|].
  apply IH. now apply act_ids.
Qed.

Lemma initialWorld_ids (now : nat) (fetch : Carrier -> string -> nat -> RawResponse + ErrorKind) :
  unique_ids (store (initialWorld now fetch)) /\
  subscriptions_refer (store (initialWorld now fetch)).
Proof. split; [apply NoDup_nil_2 | intros s Hs; inversion Hs]. Qed.

(** addPackage answers false exactly when this user is subscribed already to
    the Package of this code. *)
Lemma addPackage_answer (c : string) (user : Z) (w : World) :
  subscriptions_refer (store w) ->
  (addPackage c user w).1 = false <->
  exists p, lookupPackage c (classify c) (store w) = Some p /\
            existsb (links (packageID p) user) (subscriptions (store w)) = true.
Proof.
  intros Href. destruct (addPackage_shape c user w) as (-> & _ & _).
  unfold findOrCreatePackage, addSubscription.
  destruct (lookupPackage c (classify c) (store w)) as [p|] eqn:Hfind; simpl.
  - destruct (existsb (links (packageID p) user) (subscriptions (store w))) eqn:Hex; simpl.
    + split; [eauto | reflexivity].
    + split; [discriminate|]. intros (p' & [= <-] & Hex'). congruence.
  - rewrite (nextID_unlinked user (store w) Href). simpl.
    split; [discriminate|]. intros (p' & Hp' & _). discriminate.
Qed.

(** C3. findOrCreatePackage is idempotent: asked twice for the same
    (tracking code, carrier) it returns the same Package and creates nothing
    the second time, also when other operations happen in between. In every
    store built up by the facade no two Packages share a (tracking code,
    carrier) or an id, and a later addPackage of a code already registered,
    by the same or another user, adds no Package and subscribes that user to
    the existing one: read through either user's Subscription, the Package is
    the one registered under that code. A first addPackage answers true; the
    answer is false exactly when this user is subscribed already to the
    Package of this code. *)
Theorem findOrCreatePackage_idempotent :
  (forall (c : string) (k : Carrier) (st : Store),
     findOrCreatePackage c k (findOrCreatePackage c k st).2 = findOrCreatePackage c k st) /\
  (forall (c : string) (k : Carrier) (w : World) (later : list action),
     let first := findOrCreatePackage c k (store w) in
     let w' := acts later (setStore first.2 w) in
     let second := findOrCreatePackage c k (store w') in
     ident second.1 = ident first.1 /\ second.2 = store w') /\
  (forall (history later : list action) (c : string) (u1 u2 : Z) (now : nat)
          (fetch : Carrier -> string -> nat -> RawResponse + ErrorKind),
     let w1 := (addPackage c u1 (acts history (initialWorld now fetch))).2 in
     let w2 := acts later w1 in
     let w3 := (addPackage c u2 w2).2 in
     exists p1 p3,
       lookupPackage c (classify c) (store w1) = Some p1 /\
       lookupPackage c (classify c) (store w3) = Some p3 /\
       ident p3 = ident p1 /\ code p3 = c /\
       length (packages (store w3)) = length (packages (store w2)) /\
       getPackageForUser (packageID p1) u1 (store w3) = Some p3 /\
       getPackageForUser (packageID p1) u2 (store w3) = Some p3 /\
       unique_keys (store w3) /\ unique_ids (store w3) /\
       unique_subscriptions (store w3) /\ subscriptions_refer (store w3)) /\
  (forall (history : list action) (c : string) (u : Z) (now : nat)
          (fetch : Carrier -> string -> nat -> RawResponse + ErrorKind),
     let w := acts history (initialWorld now fetch) in
     (addPackage c u w).1 = false <->
     exists p, lookupPackage c (classify c) (store w) = Some p /\
               existsb (links (packageID p) u) (subscriptions (store w)) = true).
Proof.
  split; [exact findOrCreatePackage_twice|]. split; [|split].
  - intros c k w later first w' second.
    pose proof (findOrCreatePackage_lookup c k (store w)) as Hfirst. fold first in Hfirst.
    destruct (extends_lookupPackage c k first.2 (store w') first.1) as (p' & Hp' & Hident);
      [apply (acts_extends later (setStore first.2 w)) | exact Hfirst |].
    subst second. rewrite (findOrCreatePackage_found c k _ _ Hp'). simpl.
    split; [exact Hident | reflexivity].
  - intros history later c u1 u2 now fetch w1 w2 w3.
    set (w0 := acts history (initialWorld now fetch)) in *.
    destruct (addPackage_registers c u1 w0) as (p1 & Hp1 & _ & Hlink1). fold w1 in Hp1, Hlink1.
    destruct (extends_lookupPackage c (classify c) (store w1) (store w2) p1) as (p2 & Hp2 & Hid2);
      [apply acts_extends | exact Hp1 |].
    destruct (addPackage_registers c u2 w2) as (p3 & Hp3 & Hid3 & Hlink3). fold w3 in Hp3, Hlink3.
    rewrite (findOrCreatePackage_found c _ _ _ Hp2) in Hid3. simpl in Hid3.
    destruct (addPackage_shape c u2 w2) as (_ & Hshape & _). fold w3 in Hshape.
    rewrite (findOrCreatePackage_found c _ _ _ Hp2) in Hshape. simpl in Hshape.
    assert (Hident : ident p3 = ident p1) by congruence.
    assert (Hsame : packageID p3 = packageID p1) by (unfold ident in Hident; congruence).
    assert (Hkeys : unique_keys (store w3) /\ unique_subscriptions (store w3))
      by apply addPackage_unique, acts_unique, addPackage_unique, acts_unique, initialWorld_unique.
    assert (Hids : unique_ids (store w3) /\ subscriptions_refer (store w3))
      by apply addPackage_ids, acts_ids, addPackage_ids, acts_ids, initialWorld_ids.
    assert (Hrow : packageByID (packageID p1) (store w3) = Some p3).
    { rewrite <- Hsame. apply packageByID_unique; [apply Hids|].
      now apply (lookupPackage_in c (classify c)). }
    exists p1, p3. repeat split; try tauto.
    + now destruct (lookupPackage_key _ _ _ _ Hp3).
    + rewrite <- (length_map ident (packages (store w3))), Hshape. apply length_map.
    + apply getPackageForUser_Some. split; [|exact Hrow].
      apply (extends_links _ _ (store w1)); [|exact Hlink1].
      eapply extends_trans; [apply (acts_extends later w1) | apply addPackage_extends].
    + apply getPackageForUser_Some. split; [|exact Hrow]. now rewrite <- Hsame.
  - intros history c u now fetch w. apply addPackage_answer.
    apply acts_ids, initialWorld_ids.
Qed.

(** With the modelled core behind it, a second add of the same code by the
    same user changes nothing in the core and is answered with the "already
    added" message. *)
Lemma addPackage_again (c : string) (user : Z) (w : World) (p : Package) :
  lookupPackage c (classify c) (store w) = Some p ->
  existsb (links (packageID p) user) (subscriptions (store w)) = true ->
  addPackage c user w = (false, w).
Proof.
  intros Hp Hlink. unfold Core.addPackage.
  rewrite (findOrCreatePackage_found _ _ _ _ Hp), Hp.
  rewrite (addSubscription_again _ _ _ _ Hlink).
  rewrite bool_decide_eq_true_2 by eauto. simpl. now destruct w.
Qed.

Lemma packageList_second_add_reported
    (authenticator : Authenticator World) (c : string) (user : Z) (st : State World) :
  session st !! "userID" = Some (PyInt user) ->
  0 < user ->
  let w1 := (addPackage c user (world st)).2 in
  packageList (corePackageHandler classify normalize threshold scrapeTimeout) authenticator
      {| add_valid := true; trackingCode := c |}
      (Build_State (session st) (flashes st) (calls st) w1) =
    (Return (Redirect (url_for PackageList)),
     Build_State (session st)
       (flashes st ++ [("You have already added that package!", "warning")])
       (calls st ++ [CreateNewPackage c (PyInt user)]) w1).
Proof.
  intros Hsome Hpos w1.
  destruct (addPackage_registers c user (world st)) as (p & Hp & _ & Hlink). fold w1 in Hp, Hlink.
  pose proof (packageList_add_request
                (corePackageHandler classify normalize threshold scrapeTimeout) authenticator
                {| add_valid := true; trackingCode := c |}
                (Build_State (session st) (flashes st) (calls st) w1) (PyInt user)) as Hreport.
  simpl in Hreport. rewrite (addPackage_again c user w1 p Hp Hlink) in Hreport.
  apply Hreport; auto. simpl. f_equal. now apply Z.ltb_lt.
Qed.

End CoordinatorFacts.

Section SingleFlight.

Import Core.

Variable threshold : nat.

Local Abbreviation step := (Core.step threshold).
Local Abbreviation run := (Core.run threshold).
Local Abbreviation settled := (Core.settled threshold).

Lemma wantsScrape_idle (now : nat) (p : Package) :
  wantsScrape threshold now p = true -> inFlight (refreshState p) = false.
Proof.
  unfold wantsScrape, coordState. intros H. apply andb_prop in H as [_ H].
  destruct (inFlight (refreshState p)); [discriminate | reflexivity].
Qed.

Lemma wantsScrape_past (now : nat) (p : Package) :
  wantsScrape threshold now p = true -> pastThreshold threshold now (refreshState p) = true.
Proof.
  unfold wantsScrape, coordState. intros H. apply andb_prop in H as [_ H].
  destruct (inFlight (refreshState p)); [discriminate|].
  destruct (failedKind (refreshState p)) as [kind|].
  - destruct (terminal kind); [discriminate|].
    destruct (pastThreshold threshold now (refreshState p)); [reflexivity | discriminate].
  - destruct (pastThreshold threshold now (refreshState p)); [reflexivity | discriminate].
Qed.

Lemma finishRefresh_other (id : Z) (now : nat) (p : Package) (result : Timeline + ErrorKind) (st : Store) :
  packageID p <> id ->
  packageByID id (finishRefresh now p result st) = packageByID id st.
Proof.
  intros Hne. apply Z.eqb_neq in Hne.
  destruct result; unfold finishRefresh; rewrite packageByID_updateTimeline, Hne; reflexivity.
Qed.

Lemma finishRefresh_row (id : Z) (now : nat) (p : Package) (result : Timeline + ErrorKind) (st : Store) :
  packageByID id st = Some p ->
  exists p',
    packageByID id (finishRefresh now p result st) = Some p' /\
    inFlight (refreshState p') = false /\
    lastRefreshedAt (refreshState p') = Some now.
Proof.
  intros Hp. pose proof (packageByID_id _ _ _ Hp) as Hid.
  destruct result; unfold finishRefresh;
    rewrite packageByID_updateTimeline, Hid, Z.eqb_refl, Hp; simpl; eauto.
Qed.

Lemma beginRefresh_other (id : Z) (now : nat) (p : Package) (st st1 : Store) :
  packageID p <> id ->
  beginRefresh threshold now p st = Some st1 ->
  packageByID id st1 = packageByID id st.
Proof.
  intros Hne. apply Z.eqb_neq in Hne. unfold beginRefresh.
  destruct (wantsScrape threshold now p); [|discriminate].
  intros [= <-]. now rewrite packageByID_updateTimeline, Hne.
Qed.

Lemma beginRefresh_row (id : Z) (now : nat) (p : Package) (st st1 : Store) :
  packageByID id st = Some p ->
  beginRefresh threshold now p st = Some st1 ->
  wantsScrape threshold now p = true /\
  exists p', packageByID id st1 = Some p' /\ inFlight (refreshState p') = true.
Proof.
  intros Hp. pose proof (packageByID_id _ _ _ Hp) as Hid. unfold beginRefresh.
  destruct (wantsScrape threshold now p); [|discriminate].
  intros [= <-]. split; [reflexivity|].
  rewrite packageByID_updateTimeline, Hid, Z.eqb_refl, Hp. simpl. eauto.
Qed.

Lemma scrapesOf_launch (id id0 : Z) (st : Store) (s : System) :
  scrapesOf id {| sys_store := st; sys_clock := sys_clock s;
                  scrapeCalls := scrapeCalls s ++ [id0];
                  running := {[+ id0 +]} ⊎ running s |} =
    (scrapesOf id s + if decide (id0 = id) then 1 else 0)%nat.
Proof.
  unfold scrapesOf. simpl. rewrite filter_app, length_app. f_equal.
  rewrite filter_cons, filter_nil. destruct (decide (id0 = id)); reflexivity.
Qed.

Lemma step_flagsMatchRunning (e : event) (s : System) :
  flagsMatchRunning s -> flagsMatchRunning (step e s).
Proof.
  intros Hinv. destruct e as [|id0|id0 result]; simpl.
  - exact Hinv.
  - destruct (packageByID id0 (sys_store s)) as [p|] eqn:Hp; [|exact Hinv].
    destruct (beginRefresh threshold (sys_clock s) p (sys_store s)) as [st1|] eqn:Hbegin;
      [|exact Hinv].
    intros id. simpl. rewrite multiplicity_disj_union, multiplicity_singleton.
    destruct (decide (id = id0)) as [->|Hne].
    + destruct (beginRefresh_row _ _ _ _ _ Hp Hbegin) as (Hwants & p' & Hp' & Hflag).
      rewrite Hp', Hflag. specialize (Hinv id0). rewrite Hp in Hinv.
      rewrite (wantsScrape_idle _ _ Hwants) in Hinv. rewrite Hinv. reflexivity.
    + assert (Hne' : packageID p <> id)
        by (pose proof (packageByID_id _ _ _ Hp); congruence).
      rewrite (beginRefresh_other id _ _ _ _ Hne' Hbegin).
      apply Hinv.
  - destruct (bool_decide (id0 ∈ running s)) eqn:Hrun; [|exact Hinv].
    destruct (packageByID id0 (sys_store s)) as [p|] eqn:Hp; [|exact Hinv].
    intros id. simpl. rewrite multiplicity_difference, multiplicity_singleton.
    destruct (decide (id = id0)) as [->|Hne].
    + destruct (finishRefresh_row id0 (sys_clock s) p result _ Hp) as (p' & Hp' & Hflag & _).
      rewrite Hp', Hflag. specialize (Hinv id0). rewrite Hp in Hinv.
      destruct (inFlight (refreshState p)); rewrite Hinv; reflexivity.
    + rewrite finishRefresh_other by (pose proof (packageByID_id _ _ _ Hp); congruence).
      rewrite Nat.sub_0_r. apply Hinv.
Qed.

Lemma run_flagsMatchRunning (trace : list event) (s : System) :
  flagsMatchRunning s -> flagsMatchRunning (run trace s).
Proof.
  revert s. induction trace as [|e trace IH]; intros s Hinv; simpl; [exact Hinv|].
  apply IH. now apply step_flagsMatchRunning.
Qed.

Lemma flagsMatchRunning_le (id : Z) (s : System) :
  flagsMatchRunning s -> (multiplicity id (running s) <= 1)%nat.
Proof.
  intros Hinv. rewrite (Hinv id).
  destruct (packageByID id (sys_store s)) as [p|]; [|lia].
  destruct (inFlight (refreshState p)); lia.
Qed.

Lemma settled_no_scrape (id : Z) (k : nat) (s : System) (p : Package) :
  settled id k s -> packageByID id (sys_store s) = Some p ->
  wantsScrape threshold (sys_clock s) p = false.
Proof.
  intros [Hk Hset] Hp. rewrite Hp in Hset.
  destruct (wantsScrape threshold (sys_clock s) p) eqn:Hwants; [|reflexivity].
  pose proof (wantsScrape_idle _ _ Hwants) as Hidle.
  pose proof (wantsScrape_past _ _ Hwants) as Hpast.
  destruct Hset as [Hflag | (t & Ht & Hle)]; [congruence|].
  unfold pastThreshold in Hpast. rewrite Ht in Hpast.
  apply Nat.ltb_lt in Hpast. lia.
Qed.

Lemma step_settled (id : Z) (k : nat) (e : event) (s : System) :
  settled id k s ->
  scrapesOf id (step e s) = scrapesOf id s /\
  match e with
  | Tick => forall k', S k' = k -> settled id k' (step e s)
  | _ => settled id k (step e s)
  end.
Proof.
  intros Hset. pose proof Hset as [Hk Hrow].
  destruct e as [|id0|id0 result]; simpl.
  - split; [reflexivity|]. intros k' <-. split; [lia|]. simpl.
    destruct (packageByID id (sys_store s)) as [p|]; [|exact I].
    destruct Hrow as [Hflag | (t & Ht & Hle)]; [now left | right].
    exists t. split; [exact Ht | lia].
  - destruct (packageByID id0 (sys_store s)) as [p|] eqn:Hp; [|now split].
    destruct (beginRefresh threshold (sys_clock s) p (sys_store s)) as [st1|] eqn:Hbegin;
      [|now split].
    pose proof (packageByID_id _ _ _ Hp) as Hid0.
    destruct (decide (id0 = id)) as [->|Hne].
    + destruct (beginRefresh_row _ _ _ _ _ Hp Hbegin) as (Hwants & _).
      rewrite (settled_no_scrape id k s p Hset Hp) in Hwants. discriminate.
    + rewrite scrapesOf_launch. rewrite decide_False by exact Hne.
      split; [lia|]. split; [exact Hk|]. simpl.
      assert (Hne' : packageID p <> id) by congruence.
      rewrite (beginRefresh_other id _ _ _ _ Hne' Hbegin). exact Hrow.
  - destruct (bool_decide (id0 ∈ running s)); [|now split].
    destruct (packageByID id0 (sys_store s)) as [p|] eqn:Hp; [|now split].
    pose proof (packageByID_id _ _ _ Hp) as Hid0.
    split; [reflexivity|]. split; [exact Hk|]. simpl.
    destruct (decide (id0 = id)) as [->|Hne].
    + destruct (finishRefresh_row id (sys_clock s) p result _ Hp) as (p' & Hp' & _ & Hlast).
      rewrite Hp'. right. exists (sys_clock s). split; [exact Hlast | lia].
    + rewrite finishRefresh_other by congruence. exact Hrow.
Qed.

Lemma run_settled (id : Z) (trace : list event) :
  forall (k : nat) (s : System),
    settled id k s -> (ticks trace <= k)%nat ->
    scrapesOf id (run trace s) = scrapesOf id s.
Proof.
  induction trace as [|e trace IH]; intros k s Hset Hticks; simpl; [reflexivity|].
  destruct (step_settled id k e s Hset) as [Hsame Hnext].
  destruct e as [|id0|id0 result]; simpl in Hticks.
  - destruct k as [|k']; [lia|].
    rewrite (IH k' _ (Hnext k' eq_refl)) by lia. exact Hsame.
  - rewrite (IH k _ Hnext) by lia. exact Hsame.
  - rewrite (IH k _ Hnext) by lia. exact Hsame.
Qed.

Lemma run_one_scrape (id : Z) (trace : list event) :
  forall (k : nat) (s : System),
    (k <= threshold)%nat -> (ticks trace <= k)%nat ->
    (scrapesOf id (run trace s) <= scrapesOf id s + 1)%nat.
Proof.
  induction trace as [|e trace IH]; intros k s Hk Hticks; simpl; [lia|].
  destruct e as [|id0|id0 result]; simpl in Hticks.
  - destruct k as [|k']; [lia|].
    specialize (IH k' (step Tick s)). simpl in IH.
    etransitivity; [apply IH; lia|]. reflexivity.
  - simpl. destruct (packageByID id0 (sys_store s)) as [p|] eqn:Hp; [|now apply (IH k)].
    destruct (beginRefresh threshold (sys_clock s) p (sys_store s)) as [st1|] eqn:Hbegin;
      [|now apply (IH k)].
    pose proof (packageByID_id _ _ _ Hp) as Hid0.
    destruct (decide (id0 = id)) as [->|Hne].
    + destruct (beginRefresh_row _ _ _ _ _ Hp Hbegin) as (_ & p' & Hp' & Hflag).
      erewrite (run_settled id trace k); [| |exact Hticks].
      * rewrite scrapesOf_launch, decide_True by reflexivity. lia.
      * split; [exact Hk|]. simpl. rewrite Hp'. now left.
    + etransitivity; [apply (IH k); assumption|].
      rewrite scrapesOf_launch, decide_False by exact Hne. lia.
  - etransitivity; [apply (IH k); assumption|].
    apply Nat.add_le_mono_r, Nat.eq_le_incl. unfold scrapesOf. simpl.
    destruct (bool_decide (id0 ∈ running s)); [|reflexivity].
    now destruct (packageByID id0 (sys_store s)).
Qed.

(** C5. Single-flight: however the refresh triggers for a Package and the
    completions of its scrapes interleave, at most one scrape of the Package
    is in flight at any time, the flag keyed by the Package being set exactly
    while that scrape runs, and within one staleness window at most one scrape
    call is made for it. *)
Theorem single_flight :
  forall (trace : list event) (s : System) (id : Z),
    (flagsMatchRunning s ->
       flagsMatchRunning (run trace s) /\
       (multiplicity id (running (run trace s)) <= 1)%nat) /\
    ((ticks trace <= threshold)%nat ->
       (scrapesOf id (run trace s) <= scrapesOf id s + 1)%nat).
Proof.
  intros trace s id. split.
  - intros Hinv. pose proof (run_flagsMatchRunning trace s Hinv) as Hrun.
    split; [exact Hrun | now apply flagsMatchRunning_le].
  - intros Hticks. now apply (run_one_scrape id trace threshold s).
Qed.

End SingleFlight.

(** * The statements at work on the fixtures *)

Section Witnesses.

Import Core Sample.

Local Abbreviation refresh := (Core.refresh normalize threshold scrapeTimeout).
Local Abbreviation getPackageDetail := (Core.getPackageDetail normalize threshold scrapeTimeout).
Local Abbreviation detailViews := (Core.detailViews normalize threshold scrapeTimeout).
Local Abbreviation run := (Core.run threshold).

(** The scenario of the specification: after addPackage of a code of
    CarrierA whose site shows two events, the detail view returns exactly
    these two events, in that order. *)
Example scenario_two_events :
  (getPackageDetail 1 1 world1).1 = Some [pickedUp; inTransit].
Proof. vm_compute. reflexivity. Qed.

(** An unknown code format: the package is stored with carrier Unknown, its
    Timeline stays empty and no scrape is made for it. *)
Example scenario_unknown_carrier :
  let added := addPackage classify normalize threshold scrapeTimeout "XYZ" 1 world0 in
  added.1 = true /\
  (getPackageDetail 1 1 added.2).1 = Some [] /\
  lastRefreshedAt <$> (refreshState <$> packageByID 1 (store (getPackageDetail 1 1 added.2).2))
    = Some None.
Proof. vm_compute. auto. Qed.

(** Two users registering the same tracking code: one Package, two
    Subscriptions, and both are served the same Timeline. *)
Example scenario_two_users :
  let w := (addPackage classify normalize threshold scrapeTimeout upcode 2 world1).2 in
  map packageID (packages (store w)) = [1] /\
  map subscriber (subscriptions (store w)) = [(1, 1); (1, 2)] /\
  (getPackageDetail 1 1 w).1 = (getPackageDetail 1 2 w).1.
Proof. vm_compute. auto. Qed.

(** The first add of a code succeeds, the second one is reported as already
    added. *)
Lemma packageList_reports_add_outcome_witness :
  (session (loggedIn 1 world0) !! "userID" = Some (PyInt 1) /\
   gt_int (PyInt 1) 0 = Return true /\
   add_valid (addForm upcode) = true) /\
  packageList handler authenticator (addForm upcode) (loggedIn 1 world0) =
    (Return (Redirect "/packageList"),
     Build_State (session (loggedIn 1 world0))
       [("Package added successfully!", "success")]
       [CreateNewPackage upcode (PyInt 1)] world1) /\
  packageList handler authenticator (addForm upcode) (loggedIn 1 world1) =
    (Return (Redirect "/packageList"),
     Build_State (session (loggedIn 1 world1))
       [("You have already added that package!", "warning")]
       [CreateNewPackage upcode (PyInt 1)] world1).
Proof.
  split; [repeat split|]. split.
  - exact (packageList_reports_add_outcome handler authenticator (addForm upcode)
             (loggedIn 1 world0) (PyInt 1) eq_refl eq_refl eq_refl).
  - exact (packageList_reports_add_outcome handler authenticator (addForm upcode)
             (loggedIn 1 world1) (PyInt 1) eq_refl eq_refl eq_refl).
Defined.

(** User 2 asks for package 1, which exists and belongs to user 1 only. *)
Lemma viewPackage_unsubscribed_redirects_witness :
  (session (loggedIn 2 world1) !! "userID" = Some (PyInt 2) /\
   gt_int (PyInt 2) 0 = Return true /\
   as_int (PyInt 2) = Some 2 /\
   existsb (links 1 2) (subscriptions (store (world (loggedIn 2 world1)))) = false) /\
  getPackageData handler 1 (PyInt 2) world1 = (PyNone, world1) /\
  viewPackage handler authenticator 1 (loggedIn 2 world1) =
    (Return (Redirect "/packageList"),
     Build_State (session (loggedIn 2 world1))
       [("You are not tracking that package. Add it!", "primary")]
       [GetPackageData 1 (PyInt 2)] world1).
Proof.
  split; [repeat split|].
  destruct (viewPackage_unsubscribed_redirects classify normalize threshold scrapeTimeout
              authenticator 1 2 (PyInt 2) (loggedIn 2 world1) eq_refl eq_refl eq_refl eq_refl)
    as (_ & _ & Hdata & Hview).
  split; [exact Hdata | exact Hview].
Defined.

Lemma outage_fails (p : Package) :
  forall now fetch, (now, fetch) ∈ outage ->
    exists kind, Core.scrape normalize scrapeTimeout fetch p = inr kind.
Proof.
  intros now fetch Hin. exists CarrierUnavailable.
  unfold outage in Hin. rewrite !elem_of_cons in Hin.
  destruct Hin as [[= -> ->] | [[= -> ->] | Hin]]; [reflexivity | reflexivity |].
  inversion Hin.
Defined.

(** The carrier site is down when package 1 has gone stale: the refresh
    fails, and the two events stored before are still there and still served. *)
Lemma failed_refresh_keeps_timeline_witness :
  getPackageForUser 1 1 (store world2) = Some row1 /\
  Core.scrape normalize scrapeTimeout (fetchRaw world2) row1 = inr CarrierUnavailable /\
  timeline <$> packageByID 1 (store (refresh 1 world2)) = Some [pickedUp; inTransit] /\
  (detailViews 1 1 outage world2).1 = [Some [pickedUp; inTransit]; Some [pickedUp; inTransit]].
Proof.
  split; [reflexivity|]. split; [reflexivity|].
  destruct (failed_refresh_keeps_timeline normalize threshold scrapeTimeout
              1 1 world2 row1 outage eq_refl) as (Hone & Hviews & _).
  split.
  - exact (Hone CarrierUnavailable eq_refl).
  - exact (proj1 (Hviews (outage_fails row1))).
Defined.

Lemma system1_flagsMatchRunning : flagsMatchRunning system1.
Proof.
  intros id. unfold system1. cbn [running sys_store]. rewrite multiplicity_empty.
  change (store world1) with {| packages := [row1]; subscriptions := subscriptions (store world1) |}.
  unfold packageByID. cbn [packages find]. destruct (has_id id row1); reflexivity.
Defined.

(** Five triggers for package 1 within one minute, around a scrape that times
    out: one scrape call, never two in flight. *)
Lemma single_flight_witness :
  flagsMatchRunning system1 /\ (ticks burst <= threshold)%nat /\
  (multiplicity 1%Z (running (run burst system1)) <= 1)%nat /\
  (scrapesOf 1%Z (run burst system1) <= scrapesOf 1%Z system1 + 1)%nat.
Proof.
  split; [exact system1_flagsMatchRunning|].
  split; [unfold threshold; simpl; lia|].
  destruct (single_flight threshold burst system1 1) as [Hflag Hwindow].
  split.
  - exact (proj2 (Hflag system1_flagsMatchRunning)).
  - apply Hwindow. unfold threshold. simpl. lia.
Defined.

(** The first of the five triggers is the one that scrapes. *)
Example burst_scrapes_once :
  scrapeCalls (run burst system1) = [1] /\
  scrapesOf 1 (run burst system1) = 1%nat.
Proof. vm_compute. auto. Qed.

(** Without a session the package list is not served; with user 1 logged in
    it is. *)
Lemma login_required_guards_routes_witness :
  (session (anonymous world1) !! "userID" = None /\
   packageList handler authenticator blankForm (anonymous world1) =
     (Return (Redirect "/login"),
      Build_State ∅ [("You need to log in to do that!", "danger")] [] world1)) /\
  ((exists v, session (loggedIn 1 world1) !! "userID" = Some v /\ gt_int v 0 = Return true) /\
   packageList handler authenticator blankForm (loggedIn 1 world1) =
     packageList_func handler authenticator blankForm (loggedIn 1 world1)).
Proof.
  split.
  - split; [reflexivity|].
    exact (proj1 (login_required_guards_routes handler authenticator
                    AddPackageForm (packageList_func handler authenticator)
                    blankForm (anonymous world1)) (or_introl eq_refl)).
  - assert (Hin : exists v, session (loggedIn 1 world1) !! "userID" = Some v /\
                            gt_int v 0 = Return true)
      by (exists (PyInt 1); split; reflexivity).
    split; [exact Hin|].
    exact (proj1 (proj2 (login_required_guards_routes handler authenticator
                           AddPackageForm (packageList_func handler authenticator)
                           blankForm (loggedIn 1 world1))) Hin).
Defined.

(** A second code gets a Package and an id of its own, and its first add by
    user 1 is answered true. *)
Example scenario_second_code :
  let added := addPackage classify normalize threshold scrapeTimeout "1ZOTHER" 1 world1 in
  added.1 = true /\
  map ident (packages (store added.2)) = [(1, upcode, CarrierA); (2, "1ZOTHER", CarrierA)] /\
  map subscriber (subscriptions (store added.2)) = [(1, 1); (2, 1)] /\
  code <$> getPackageForUser 2 1 (store added.2) = Some "1ZOTHER" /\
  getPackageForUser 2 2 (store added.2) = None.
Proof. vm_compute. auto 6. Qed.

(** User 1 adds the code of [world1] once more: the answer is false, because
    the Subscription exists. *)
Lemma findOrCreatePackage_idempotent_witness :
  (exists p,
     lookupPackage upcode (classify upcode)
       (store (acts classify normalize threshold scrapeTimeout [AddPackage upcode 1]
                 (initialWorld 100 siteUp))) = Some p /\
     existsb (links (packageID p) 1)
       (subscriptions
          (store (acts classify normalize threshold scrapeTimeout [AddPackage upcode 1]
                    (initialWorld 100 siteUp)))) = true) /\
  (addPackage classify normalize threshold scrapeTimeout upcode 1
     (acts classify normalize threshold scrapeTimeout [AddPackage upcode 1]
        (initialWorld 100 siteUp))).1 = false.
Proof.
  assert (Hlinked :
    exists p,
      lookupPackage upcode (classify upcode)
        (store (acts classify normalize threshold scrapeTimeout [AddPackage upcode 1]
                  (initialWorld 100 siteUp))) = Some p /\
      existsb (links (packageID p) 1)
        (subscriptions
           (store (acts classify normalize threshold scrapeTimeout [AddPackage upcode 1]
                     (initialWorld 100 siteUp)))) = true)
    by (exists row1; split; reflexivity).
  split; [exact Hlinked|].
  destruct (findOrCreatePackage_idempotent classify normalize threshold scrapeTimeout)
    as (_ & _ & _ & Hanswer).
  exact (proj2 (Hanswer [AddPackage upcode 1] upcode 1 100%nat siteUp) Hlinked).
Defined.

(** An expired link followed by user 1, who is logged in: createNewUser
    returns False, and the session is modified all the same, by the warning
    that is flashed. *)
Lemma confirmUserEmail_falsy_modifies_session :
  truthy (createNewUser authenticator "expired" (world (loggedIn 1 world1))).1 = false /\
  flask_session (loggedIn 1 world1) = {[ "userID" := PyInt 1 ]} /\
  flask_session (confirmUserEmail handler authenticator "expired" (loggedIn 1 world1)).2 =
    {[ "userID" := PyInt 1;
       "_flashes" :=
         PyList [PyList [PyStr "warning";
                         PyStr "This link is either invalid or has expired. Please re-register."]] ]} /\
  flask_session (confirmUserEmail handler authenticator "expired" (loggedIn 1 world1)).2
    <> flask_session (loggedIn 1 world1).
Proof.
  split; [reflexivity|]. split; [vm_compute; reflexivity|]. split; [vm_compute; reflexivity|].
  intros Heq. apply (f_equal (fun m : gmap string pyval => m !! "_flashes")) in Heq.
  vm_compute in Heq. discriminate Heq.
Qed.

(** The same expired link: the user of the session is still user 1, and the
    link that is good logs user 2 in. *)
Lemma confirmUserEmail_logs_in_or_keeps_user_witness :
  ("userID" <> "_flashes" /\
   flask_session (confirmUserEmail handler authenticator "expired" (loggedIn 1 world1)).2
     !! "userID" = Some (PyInt 1)) /\
  flask_session (confirmUserEmail handler authenticator "tok-2" (loggedIn 1 world1)).2
    !! "userID" = Some (PyInt 2).
Proof.
  assert (Hk : "userID" <> "_flashes") by discriminate.
  split; [split; [exact Hk|]|].
  - destruct (confirmUserEmail_logs_in_or_keeps_user handler authenticator "expired"
                (loggedIn 1 world1)) as (_ & Hkeys & _).
    rewrite (Hkeys "userID" Hk). reflexivity.
  - destruct (confirmUserEmail_logs_in_or_keeps_user handler authenticator "tok-2"
                (loggedIn 1 world1)) as (_ & Huser & _).
    exact Huser.
Defined.

End Witnesses.

(** * Further properties of the request handlers *)

Section RouteFacts.

Context {W : Type}.
Variable packageHandler : PackageHandler W.
Variable authenticator : Authenticator W.

Local Abbreviation handle := (dispatch packageHandler authenticator).
Local Abbreviation serveAll := (serve packageHandler authenticator).
Local Abbreviation answer := (respond packageHandler authenticator).
Local Abbreviation answerEach := (answerAll packageHandler authenticator).

(** Case analysis on the guard of a protected route run in state [st]. *)
Ltac split_guard st :=
  lazymatch goal with
  | |- context [login_required ?f ?a st] =>
      let v := fresh "v" in
      let Hs := fresh "Hsession" in
      let Hg := fresh "Hgt" in
      destruct (session st !! "userID") as [v|] eqn:Hs;
      [ rewrite (login_required_present f a st v Hs);
        destruct (gt_int v 0) as [[|]|] eqn:Hg
      | rewrite (login_required_absent f a st Hs) ]
  end.

(** Runs a handler body down to its leaves: every test on a form field, on
    the truth of a result and on what a collaborator returns is split. *)
Ltac run_body :=
  unfold hello_world, login, register, confirmUserEmail, resendEmail, logout_func,
    packageList_func, viewPackage_func, bind, invoke, perform, session_get,
    session_set, session_clear, flash, ret;
  repeat
    (cbn [fst snd];
     match goal with
     | H : session ?st !! "userID" = Some _ |- context [session ?st !! "userID"] => rewrite H
     | |- context [if login_valid ?f then _ else _] => destruct (login_valid f) eqn:?
     | |- context [if register_valid ?f then _ else _] => destruct (register_valid f) eqn:?
     | |- context [if add_valid ?f then _ else _] => destruct (add_valid f) eqn:?
     | |- context [if (?z =? 1) then _ else _] => destruct (Z.eqb_spec z 1)
     | |- context [if (?z =? 2) then _ else _] => destruct (z =? 2)
     | |- context [verifyLogin ?a ?x ?y ?w] => destruct (verifyLogin a x y w) as [? ?] eqn:?
     | |- context [createNewPendingUser ?a ?x ?y ?w] =>
         destruct (createNewPendingUser a x y w) as [? ?] eqn:?
     | |- context [createNewUser ?a ?x ?w] => destruct (createNewUser a x w) as [? ?] eqn:?
     | |- context [sendEmailVerificationEmail ?a ?x ?w] =>
         destruct (sendEmailVerificationEmail a x w) as [? ?] eqn:?
     | |- context [createNewPackage ?a ?x ?y ?w] =>
         destruct (createNewPackage a x y w) as [? ?] eqn:?
     | |- context [getListOfPackages ?a ?x ?w] =>
         destruct (getListOfPackages a x w) as [? ?] eqn:?
     | |- context [getPackageData ?a ?x ?y ?w] =>
         destruct (getPackageData a x y w) as [? ?] eqn:?
     | |- context [if truthy ?v then _ else _] => destruct (truthy v) eqn:?
     | |- context [if negb (truthy ?v) then _ else _] => destruct (truthy v) eqn:?
     end);
  cbn [fst snd session flashes calls world negb redirect render_template url_for].

Lemma gt_int_Return (v : pyval) (n : Z) (b : bool) :
  gt_int v n = Return b -> is_number v = true.
Proof. destruct v; simpl; intros H; try discriminate; reflexivity. Qed.

Lemma gt_int_Raise (v : pyval) (n : Z) (e : exn) :
  gt_int v n = Raise e -> e = TypeError /\ is_number v = false.
Proof. destruct v; simpl; intros H; try discriminate; injection H as <-; auto. Qed.

Lemma is_number_gt_int (v : pyval) (n : Z) :
  is_number v = false -> gt_int v n = Raise TypeError.
Proof. destruct v; simpl; intros H; try discriminate; reflexivity. Qed.


Lemma respond_raises (r : request) (st : State W) (e : exn) :
  (answer r st).1 = Raise e ->
  e = TypeError /\
  ((protected r = true /\ exists v, session st !! "userID" = Some v /\ is_number v = false) \/
   (exists resendType email, r = ReqResendEmail resendType email /\ resendType <> 1)) /\
  (answer r st).2 = st.
Proof.
  destruct r as [|form| |form|form|packageID|token|resendType email];
    unfold respond, dispatch, logout, packageList, viewPackage;
    try split_guard st; run_body; simpl; intros Hraise; try discriminate Hraise.
  all: injection Hraise as <-.
  all: try (apply gt_int_Raise in Hgt as [-> Hnum]; split; [reflexivity|]; split;
            [left; eauto | reflexivity]).
  all: split; [reflexivity|]; split; [right; eauto | reflexivity].
Qed.

(** X1. As long as the collaborators' methods and the templates return, a
    request fails with an exception in two cases only, both a TypeError: a
    route under login_required when the stored "userID" is not a number (the
    check `session["userID"] > 0`), and resendEmail with a resendType other
    than 1, whose view returns None. No request raises KeyError on
    session["userID"], and a request that fails has changed nothing. *)
Theorem request_fails_only_with_TypeError :
  forall (r : request) (st : State W) (e : exn),
    ((answer r st).1 = Raise e <->
     e = TypeError /\
     ((protected r = true /\
       exists v, session st !! "userID" = Some v /\ is_number v = false) \/
      (exists resendType email, r = ReqResendEmail resendType email /\ resendType <> 1))) /\
    ((answer r st).1 = Raise e -> (answer r st).2 = st).
Proof.
  intros r st e. split; [split|].
  - intros Hraise. destruct (respond_raises r st e Hraise) as (He & Hcase & _). auto.
  - intros (-> & [(Hp & v & Hsome & Hnum) | (resendType & email & -> & Hne)]).
    + destruct r; try discriminate Hp;
        unfold respond, dispatch, logout, packageList, viewPackage;
        rewrite (login_required_present _ _ _ _ Hsome), (is_number_gt_int v 0 Hnum);
        reflexivity.
    + unfold respond, dispatch, resendEmail.
      destruct (Z.eqb_spec resendType 1) as [Heq|_]; [contradiction|].
      now destruct (resendType =? 2).
  - intros Hraise. now destruct (respond_raises r st e Hraise) as (_ & _ & Hst).
Qed.















(** X6. For a logged-in user, logout clears the session, pending messages
    included, and flashes its message, so that the session dictionary is left
    with that one message under "_flashes" and nothing else; the response is
    the redirect to the login page. Every protected route requested next,
    logout included, is answered with the redirect to the login page and
    calls no collaborator. *)
Theorem logout_then_denied :
  forall (st : State W) (v : pyval),
    session st !! "userID" = Some v ->
    gt_int v 0 = Return true ->
    let st' := Build_State ∅ [("You have been logged out!", "primary")]
                 (calls st) (world st) in
    handle ReqLogout st = (Return (Redirect (url_for Login)), st') /\
    flask_session st' =
      {[ "_flashes" := PyList [pyFlash ("You have been logged out!", "primary")] ]} /\
    forall r : request, protected r = true ->
      handle r st' = (Return (Redirect (url_for Login)), deniedState st').
Proof.
  intros st v Hsome Hgt st'. split; [|split].
  - unfold dispatch, logout.
    rewrite (login_required_present _ _ _ _ Hsome), Hgt. reflexivity.
  - unfold flask_session. simpl. apply insert_empty.
  - intros r Hp. destruct r; try discriminate Hp;
      unfold dispatch, logout, packageList, viewPackage;
      now rewrite login_required_absent.
Qed.

(** X7. A login or an email confirmation whose result [v] is truthy is
    greeted as successful and stores [v]; a protected route requested next
    runs its body exactly when [v] is greater than zero, so a truthy ID that
    is not, such as a negative one, is sent back to the login page. *)
Theorem stored_id_decides_access :
  forall (A : Type) (func : A -> M response) (args : A) (st : State W),
    (forall form : LoginForm,
       login_valid form = true ->
       let v := (verifyLogin authenticator (login_email form) (login_password form) (world st)).1 in
       let st' := (handle (ReqLogin form) st).2 in
       truthy v = true ->
       (handle (ReqLogin form) st).1 = Return (Redirect (url_for PackageList)) /\
       flashes st' = (flashes st ++ [("Login successful!", "success")])%list /\
       session st' !! "userID" = Some v /\
       login_required func args st' =
         match gt_int v 0 with
         | Return true => func args st'
         | Return false => (Return (Redirect (url_for Login)), deniedState st')
         | Raise e => (Raise e, st')
         end) /\
    (forall token : string,
       let v := (createNewUser authenticator token (world st)).1 in
       let st' := (handle (ReqConfirmUserEmail token) st).2 in
       truthy v = true ->
       (handle (ReqConfirmUserEmail token) st).1 = Return (Redirect (url_for PackageList)) /\
       flashes st' =
         (flashes st ++ [("Verification successful! You are now logged in.", "success")])%list /\
       session st' !! "userID" = Some v /\
       login_required func args st' =
         match gt_int v 0 with
         | Return true => func args st'
         | Return false => (Return (Redirect (url_for Login)), deniedState st')
         | Raise e => (Raise e, st')
         end).
Proof.
  intros A func args st. split.
  - intros form Hvalid v st' Htruthy.
    assert (Hst : handle (ReqLogin form) st =
                  (Return (Redirect (url_for PackageList)),
                   Build_State (<["userID" := v]> (session st))
                     (flashes st ++ [("Login successful!", "success")])
                     (calls st ++ [VerifyLogin (login_email form) (login_password form)])
                     (verifyLogin authenticator (login_email form) (login_password form)
                        (world st)).2)).
    { subst v. unfold dispatch, login, bind, invoke, perform. rewrite Hvalid.
      destruct (verifyLogin authenticator (login_email form) (login_password form) (world st))
        as [u w']. simpl in *. now rewrite Htruthy. }
    subst st'. rewrite Hst. simpl.
    assert (Hsome : (<["userID" := v]> (session st) : gmap string pyval) !! "userID" = Some v)
      by apply lookup_insert_eq.
    repeat split; auto. now apply login_required_present.
  - intros token v st' Htruthy.
    assert (Hst : handle (ReqConfirmUserEmail token) st =
                  (Return (Redirect (url_for PackageList)),
                   Build_State (<["userID" := v]> (session st))
                     (flashes st ++ [("Verification successful! You are now logged in.", "success")])
                     (calls st ++ [CreateNewUser token])
                     (createNewUser authenticator token (world st)).2)).
    { subst v. unfold dispatch, confirmUserEmail, bind, invoke, perform.
      destruct (createNewUser authenticator token (world st)) as [u w']. simpl in *.
      now rewrite Htruthy. }
    subst st'. rewrite Hst. simpl.
    assert (Hsome : (<["userID" := v]> (session st) : gmap string pyval) !! "userID" = Some v)
      by apply lookup_insert_eq.
    repeat split; auto. now apply login_required_present.
Qed.

(** X8. resendEmail acts on resendType 1 only: for every other value it
    calls nothing, flashes nothing and returns no response. *)
Theorem resendEmail_other_types_do_nothing :
  forall (resendType : Z) (email : string) (st : State W),
    resendType <> 1 ->
    resendEmail packageHandler authenticator resendType email st = (Return NoResponse, st).
Proof.
  intros resendType email st Hne. unfold resendEmail.
  destruct (Z.eqb_spec resendType 1) as [Heq|_]; [contradiction|].
  now destruct (resendType =? 2).
Qed.

(** X9. viewPackage shows the package page exactly when what
    getPackageData returned is truthy, and then hands that value to the
    template unchanged; an empty result (None, False, 0, the empty string,
    the empty list) is answered like a package the user does not track. *)
Theorem viewPackage_renders_iff_truthy :
  forall (packageID : Z) (st : State W) (userID : pyval),
    session st !! "userID" = Some userID ->
    gt_int userID 0 = Return true ->
    let data := (getPackageData packageHandler packageID userID (world st)).1 in
    let out := viewPackage packageHandler authenticator packageID st in
    (truthy data = true <->
     out.1 = Return (Rendered "packageData.html" [("packageData", ArgVal data)])) /\
    (truthy data = false <->
     out.1 = Return (Redirect (url_for PackageList))) /\
    (truthy data = false <->
     data = PyNone \/ data = PyBool false \/ data = PyInt 0 \/ data = PyStr "" \/
     data = PyList []).
Proof.
  intros packageID st userID Hsome Hgt data out. subst out.
  rewrite (viewPackage_logged_in _ _ _ _ _ Hsome Hgt). subst data.
  destruct (getPackageData packageHandler packageID userID (world st)) as [data w']. simpl.
  split; [|split].
  - destruct (truthy data); simpl; split; intros H; try discriminate; reflexivity.
  - destruct (truthy data); simpl; split; intros H; try discriminate; reflexivity.
  - split.
    + destruct data as [|[|]|z|s|[|x l]]; simpl; intros H; try discriminate; auto.
      * apply negb_false_iff, Z.eqb_eq in H. subst. auto.
      * apply negb_false_iff, String.eqb_eq in H. subst. auto 6.
    + intros [-> | [-> | [-> | [-> | ->]]]]; reflexivity.
Qed.

(** X10. A request for the package list that is not a validated form
    creates no package and flashes nothing: it asks the core once for the
    list of the session's user and renders the page with that list and the
    form as submitted. *)
Theorem packageList_unsubmitted_renders_list :
  forall (form : AddPackageForm) (st : State W) (userID : pyval),
    session st !! "userID" = Some userID ->
    gt_int userID 0 = Return true ->
    add_valid form = false ->
    let '(packageListDict, w') := getListOfPackages packageHandler userID (world st) in
    packageList packageHandler authenticator form st =
      (Return (Rendered "packageList.html"
                 [("form", ArgAddPackageForm form); ("packageList", ArgVal packageListDict)]),
       Build_State (session st) (flashes st) (calls st ++ [GetListOfPackages userID]) w').
Proof.
  intros form st userID Hsome Hgt Hvalid.
  destruct (getListOfPackages packageHandler userID (world st)) as [lst w'] eqn:Hlist.
  unfold packageList. rewrite (login_required_present _ _ _ _ Hsome), Hgt.
  unfold packageList_func, bind, session_get, invoke, perform. rewrite Hvalid, Hsome. simpl.
  now rewrite Hlist.
Qed.






Lemma route_calls_none (r : request) (l : list call) :
  exists cl : list call, l = (l ++ cl)%list /\ forall c, c ∈ cl -> call_of_route r c.
Proof. exists []. rewrite app_nil_r. split; [reflexivity|]. intros c Hin. inversion Hin. Qed.

Lemma route_calls_one (r : request) (l : list call) (c : call) :
  call_of_route r c ->
  exists cl : list call,
    (l ++ [c])%list = (l ++ cl)%list /\ forall c', c' ∈ cl -> call_of_route r c'.
Proof.
  intros Hc. exists [c]. split; [reflexivity|].
  intros c' Hin. apply list_elem_of_singleton in Hin. now subst.
Qed.

(** X13. The calls a request makes are those of its own route, at its own
    arguments: a package is created only by a validated add-package form, for
    the code in that form; the list is fetched only by the package list when
    no form was validated; credentials reach verifyLogin and
    createNewPendingUser only from a validated login or registration form; a
    verification email is sent only by resendEmail with resendType 1. *)
Theorem calls_come_from_their_route :
  forall (r : request) (st : State W),
    exists cl : list call,
      calls (handle r st).2 = (calls st ++ cl)%list /\
      forall c, c ∈ cl -> call_of_route r c.
Proof.
  intros r st.
  destruct r as [|form| |form|form|packageID|token|resendType email];
    unfold dispatch, logout, packageList, viewPackage, deniedState;
    try split_guard st; run_body; simpl;
    first [ apply route_calls_none
          | apply route_calls_one; simpl; subst; solve [eauto 8] ].
Qed.

(** X14. Stacking the decorator changes nothing: a function wrapped twice
    by login_required behaves as the function wrapped once. *)
Theorem login_required_idempotent :
  forall (A : Type) (func : A -> M response) (args : A) (st : State W),
    login_required (login_required func) args st = login_required func args st.
Proof.
  intros A func args st.
  destruct (session st !! "userID") as [v|] eqn:Hsome.
  - rewrite (login_required_present (login_required func) _ _ _ Hsome).
    rewrite (login_required_present func _ _ _ Hsome).
    now destruct (gt_int v 0) as [[|]|].
  - now rewrite !(login_required_absent _ _ _ Hsome).
Qed.

Lemma rejected_request (r : request) (st : State W) :
  rejects_all authenticator ->
  session st !! "userID" = None ->
  session (handle r st).2 !! "userID" = None /\
  exists cl : list call,
    calls (handle r st).2 = (calls st ++ cl)%list /\
    Forall (fun c => core_identity c = None) cl.
Proof.
  intros Hrej Hnone. destruct (Hrej (world st)) as [Hlogin Hconfirm].
  destruct r as [|form| |form|form|packageID|token|resendType email];
    unfold dispatch, logout, packageList, viewPackage, deniedState;
    try rewrite (login_required_absent _ _ _ Hnone); run_body; simpl;
    try (split; [exact Hnone|]);
    try (exists []; rewrite app_nil_r; split; [reflexivity | constructor]; fail);
    try (eexists [_]; split; [reflexivity|]; repeat constructor; fail).
  - specialize (Hlogin (login_email form) (login_password form)).
    match goal with H : verifyLogin _ _ _ _ = _ |- _ => rewrite H in Hlogin end.
    simpl in Hlogin. congruence.
  - specialize (Hconfirm token).
    match goal with H : createNewUser _ _ _ = _ |- _ => rewrite H in Hconfirm end.
    simpl in Hconfirm. congruence.
Qed.

(** X15. When the authenticator accepts nobody, no run of requests started
    without a "userID" in the session ever reaches the package core: no
    createNewPackage, getListOfPackages or getPackageData call is made, and
    the session stays without a user. *)
Theorem rejecting_authenticator_shields_core :
  forall (rs : list request) (st : State W),
    rejects_all authenticator ->
    session st !! "userID" = None ->
    session (serveAll rs st).2 !! "userID" = None /\
    exists cl : list call,
      calls (serveAll rs st).2 = (calls st ++ cl)%list /\
      Forall (fun c => core_identity c = None) cl.
Proof.
  intros rs st Hrej. revert st.
  induction rs as [|r rs IH]; intros st Hnone; simpl.
  - split; [exact Hnone|]. exists []. rewrite app_nil_r. split; [reflexivity | constructor].
  - destruct (rejected_request r st Hrej Hnone) as (Hnone1 & cl1 & Hcalls1 & Hall1).
    destruct (handle r st) as [o st1]. simpl in *.
    destruct (IH st1 Hnone1) as (Hnone2 & cl2 & Hcalls2 & Hall2).
    destruct (serveAll rs st1) as [os st2]. simpl in *.
    split; [exact Hnone2|]. exists (cl1 ++ cl2)%list.
    rewrite Hcalls2, Hcalls1, app_assoc. split; [reflexivity|].
    now apply Forall_app.
Qed.

(** X16. A validated login form or add-package form is never answered with
    a rendered page: when the handler returns, it returns a redirect, so that
    reloading does not submit the form again. A validated registration is
    redirected only when the user exists already; when it succeeds the
    verify-your-email page is rendered in answer to the submission itself. *)
Theorem validated_forms_redirect :
  forall (st : State W),
    (forall form : LoginForm,
       login_valid form = true ->
       exists location, (login packageHandler authenticator form st).1 = Return (Redirect location)) /\
    (forall (form : AddPackageForm) (resp : response),
       add_valid form = true ->
       (packageList packageHandler authenticator form st).1 = Return resp ->
       exists location, resp = Redirect location) /\
    (forall form : RegisterForm,
       register_valid form = true ->
       (register packageHandler authenticator form st).1 =
         if truthy (createNewPendingUser authenticator (register_email form)
                      (register_password form) (world st)).1
         then Return (Rendered "verifyYourEmail.html"
                        [("email", ArgVal (PyStr (register_email form)));
                         ("password", ArgVal (PyStr (register_password form)))])
         else Return (Redirect (url_for Register))).
Proof.
  intros st. split; [|split].
  - intros form Hvalid. unfold login. rewrite Hvalid. run_body; simpl; eauto.
  - intros form resp Hvalid. unfold packageList, deniedState.
    split_guard st; unfold packageList_func; try rewrite Hvalid; run_body; simpl;
      intros Hresp; try discriminate Hresp; injection Hresp as <-; eauto.
  - intros form Hvalid. unfold register. rewrite Hvalid.
    unfold bind, invoke, perform.
    destruct (createNewPendingUser authenticator (register_email form) (register_password form)
                (world st)) as [pending w'].
    simpl. destruct (truthy pending); reflexivity.
Qed.

End RouteFacts.

Section RouteWitnesses.

Import Sample.

Local Abbreviation handle := (dispatch handler authenticator).
Local Abbreviation serveAll := (serve handler authenticator).
Local Abbreviation answer := (respond handler authenticator).
Local Abbreviation answerEach := (answerAll handler authenticator).

(** A session whose "userID" is a string: asking for a package fails with
    TypeError and changes nothing; so does the password-reset resend, for
    anybody. *)
Lemma request_fails_only_with_TypeError_witness :
  ((answer (ReqPackageDetails 1) (strangeSession world1)).1 = Raise TypeError /\
   (answer (ReqPackageDetails 1) (strangeSession world1)).2 = strangeSession world1) /\
  ((answer (ReqResendEmail 2 "bob@example.org") (anonymous world1)).1 = Raise TypeError /\
   (answer (ReqResendEmail 2 "bob@example.org") (anonymous world1)).2 = anonymous world1).
Proof.
  split.
  - destruct (request_fails_only_with_TypeError handler authenticator
                (ReqPackageDetails 1) (strangeSession world1) TypeError) as [[_ Hback] Hsame].
    assert (Hraise : (answer (ReqPackageDetails 1) (strangeSession world1)).1 = Raise TypeError).
    { apply Hback. split; [reflexivity|]. left. split; [reflexivity|].
      exists (PyStr "ann"). split; reflexivity. }
    split; [exact Hraise | exact (Hsame Hraise)].
  - destruct (request_fails_only_with_TypeError handler authenticator
                (ReqResendEmail 2 "bob@example.org") (anonymous world1) TypeError)
      as [[_ Hback] Hsame].
    assert (Hraise : (answer (ReqResendEmail 2 "bob@example.org") (anonymous world1)).1
                     = Raise TypeError).
    { apply Hback. split; [reflexivity|]. right.
      exists 2, "bob@example.org". split; [reflexivity | discriminate]. }
    split; [exact Hraise | exact (Hsame Hraise)].
Defined.



(** What the visit leaves in the session: no user, and the two messages
    flashed since the logout. *)
Example visit_leaves_flashes :
  flask_session (serveAll visit (anonymous world0)).2 =
    {[ "_flashes" := PyList [PyList [PyStr "primary"; PyStr "You have been logged out!"];
                             PyList [PyStr "danger"; PyStr "You need to log in to do that!"]] ]}.
Proof. vm_compute. reflexivity. Qed.






(** User 1, with a message still pending, logs out and asks for package 1
    again. *)
Lemma logout_then_denied_witness :
  let st := Build_State {[ "userID" := PyInt 1 ]} [("Package added successfully!", "success")]
              [] world1 in
  session st !! "userID" = Some (PyInt 1) /\
  gt_int (PyInt 1) 0 = Return true /\
  (handle ReqLogout st).1 = Return (Redirect "/login") /\
  flask_session (handle ReqLogout st).2 =
    {[ "_flashes" := PyList [PyList [PyStr "primary"; PyStr "You have been logged out!"]] ]} /\
  (handle (ReqPackageDetails 1) (handle ReqLogout st).2).1 = Return (Redirect "/login").
Proof.
  intros st. split; [reflexivity|]. split; [reflexivity|].
  destruct (logout_then_denied handler authenticator st (PyInt 1) eq_refl eq_refl)
    as (Hout & Hsession & Hnext).
  rewrite Hout. split; [reflexivity|]. split; [exact Hsession|].
  exact (f_equal fst (Hnext (ReqPackageDetails 1) eq_refl)).
Defined.

(** An account with ID -1: the login is greeted as successful, the package
    list that follows is refused. *)
Lemma stored_id_decides_access_witness :
  let st' := (dispatch handler negativeAuthenticator
                (ReqLogin (loginForm "neg@example.org" "secret")) (anonymous world0)).2 in
  flashes st' = [("Login successful!", "success")] /\
  login_required (packageList_func handler negativeAuthenticator) blankForm st' =
    (Return (Redirect "/login"), deniedState st').
Proof.
  destruct (stored_id_decides_access handler negativeAuthenticator AddPackageForm
              (packageList_func handler negativeAuthenticator) blankForm (anonymous world0))
    as [Hlogin _].
  destruct (Hlogin (loginForm "neg@example.org" "secret") eq_refl eq_refl)
    as (_ & Hflash & _ & Hguard).
  split; [exact Hflash | exact Hguard].
Defined.

Lemma resendEmail_other_types_do_nothing_witness :
  (7 <> 1) /\
  resendEmail handler authenticator 7 "bob@example.org" (anonymous world0)
    = (Return NoResponse, anonymous world0).
Proof.
  split; [discriminate|].
  apply (resendEmail_other_types_do_nothing handler authenticator 7 "bob@example.org"
           (anonymous world0)).
  discriminate.
Defined.

(** User 1 tracks package 1 of [world3], whose data is the empty list: the
    answer is the redirect meant for packages the user does not track. *)
Lemma viewPackage_renders_iff_truthy_witness :
  session (loggedIn 1 world3) !! "userID" = Some (PyInt 1) /\
  gt_int (PyInt 1) 0 = Return true /\
  (getPackageData handler 1 (PyInt 1) world3).1 = PyList [] /\
  (viewPackage handler authenticator 1 (loggedIn 1 world3)).1 = Return (Redirect "/packageList").
Proof.
  split; [reflexivity|]. split; [reflexivity|]. split; [reflexivity|].
  destruct (viewPackage_renders_iff_truthy handler authenticator 1 (loggedIn 1 world3) (PyInt 1)
              eq_refl eq_refl) as (_ & [Hredirect _] & _).
  exact (Hredirect eq_refl).
Defined.

Lemma packageList_unsubmitted_renders_list_witness :
  session (loggedIn 1 world1) !! "userID" = Some (PyInt 1) /\
  gt_int (PyInt 1) 0 = Return true /\
  add_valid blankForm = false /\
  (packageList handler authenticator blankForm (loggedIn 1 world1)).1 =
    Return (Rendered "packageList.html"
              [("form", ArgAddPackageForm blankForm);
               ("packageList",
                ArgVal (PyList [PyList [PyInt 1; PyStr upcode; PyStr "CarrierA";
                                        PyStr "InTransit"; PyInt 100]]))]).
Proof.
  split; [reflexivity|]. split; [reflexivity|]. split; [reflexivity|].
  exact (f_equal fst (packageList_unsubmitted_renders_list handler authenticator blankForm
                        (loggedIn 1 world1) (PyInt 1) eq_refl eq_refl eq_refl)).
Defined.

Lemma closedAuthenticator_rejects_all : rejects_all closedAuthenticator.
Proof. intros w. split; intros; reflexivity. Defined.

(** Every route tried without an account: the package core is not called. *)
Lemma rejecting_authenticator_shields_core_witness :
  rejects_all closedAuthenticator /\
  session (anonymous world1) !! "userID" = None /\
  exists cl : list call,
    calls (serve handler closedAuthenticator intrusion (anonymous world1)).2
      = (calls (anonymous world1) ++ cl)%list /\
    Forall (fun c => core_identity c = None) cl.
Proof.
  split; [exact closedAuthenticator_rejects_all|]. split; [reflexivity|].
  exact (proj2 (rejecting_authenticator_shields_core handler closedAuthenticator intrusion
                  (anonymous world1) closedAuthenticator_rejects_all eq_refl)).
Defined.

Lemma validated_forms_redirect_witness :
  login_valid (loginForm "ann@example.org" "wrong") = true /\
  (exists location,
     (login handler authenticator (loginForm "ann@example.org" "wrong") (anonymous world0)).1
       = Return (Redirect location)) /\
  register_valid (registerForm "bob@example.org" "pw") = true /\
  (register handler authenticator (registerForm "bob@example.org" "pw") (anonymous world0)).1
    = Return (Rendered "verifyYourEmail.html"
                [("email", ArgVal (PyStr "bob@example.org")); ("password", ArgVal (PyStr "pw"))]).
Proof.
  destruct (validated_forms_redirect handler authenticator (anonymous world0))
    as (Hlogin & _ & Hregister).
  split; [reflexivity|].
  split; [exact (Hlogin (loginForm "ann@example.org" "wrong") eq_refl)|].
  split; [reflexivity|].
  exact (Hregister (registerForm "bob@example.org" "pw") eq_refl).
Defined.

(** The visit, request by request. *)
Example visit_responses :
  map (fun o => match o with
                | Return (Redirect location) => location
                | Return (Rendered template _) => template
                | Return NoResponse => "none"
                | Raise _ => "error"
                end)
      (serveAll visit (anonymous world0)).1
  = ["/packageList"; "/packageList"; "packageData.html"; "/login"; "/login"].
Proof. vm_compute. reflexivity. Qed.



End RouteWitnesses.
